(** * ResPredAI website: the publication feed renderer, the citation copy
      and the header scroll handler of [js/main.js]

    The development embeds the functions of [js/main.js] that carry
    behaviour of their own: [escapeHtml], [createPublicationCard],
    [loadPublications], [showToast], [copyToClipboard] and the scroll
    handler installed by [initHeaderScroll].

    Strings are [string]; a character stands for one code unit below 256.
    Values read from the JSON feed are the primitive JavaScript values.
    Numbers are the integers, printed in decimal. *)

From Stdlib Require Import String Ascii List ZArith Lia Bool DecimalString.
Import ListNotations.

Local Open Scope string_scope.

(* ================================================================== *)
(** ** JavaScript values and their coercions *)

Module Js.

Inductive value : Type :=
| Undefined
| Null
| Boolean (b : bool)
| Number (n : Z)
| Str (s : string).

(** [ToBoolean]: what [!v], [v ? a : b] and [v || w] test. *)
Definition truthy (v : value) : bool :=
  match v with
  | Undefined | Null => false
  | Boolean b => b
  | Number n => negb (n =? 0)%Z
  | Str s => negb (s =? "")
  end.

(** [Number n] stands for the integers a JSON feed writes out digit by
    digit, those of magnitude below 2^53, which JavaScript holds exactly
    and prints in plain decimal. Fractions and larger numbers have no
    value here. *)
Definition number_to_string (n : Z) : string :=
  NilZero.string_of_int (Z.to_int n).

(** [ToString], as applied by ['...' + v] and by the [textContent]
    setter. *)
Definition to_string (v : value) : string :=
  match v with
  | Undefined => "undefined"
  | Null => "null"
  | Boolean true => "true"
  | Boolean false => "false"
  | Number n => number_to_string n
  | Str s => s
  end.

(** [v || w] *)
Definition or_else (v w : value) : value :=
  if truthy v then v else w.

End Js.

(* ================================================================== *)
(** ** Serialising a text node

    [div.textContent = text; return div.innerHTML] gives the text of the
    single text node of [div] as the HTML fragment serialiser writes it:
    [&], [<], [>] and the no-break space are replaced by references, every
    other character is copied (quotes too, as this is not an attribute). *)

Module Html.

Definition nbsp : ascii := ascii_of_nat 160.

Definition escape_char (c : ascii) : string :=
  if (c =? "&")%char then "&amp;"
  else if (c =? "<")%char then "&lt;"
  else if (c =? ">")%char then "&gt;"
  else if (c =? nbsp)%char then "&nbsp;"
  else String c "".

Fixpoint escape_text (s : string) : string :=
  match s with
  | "" => ""
  | String c r => escape_char c ++ escape_text r
  end.

End Html.

(* ================================================================== *)
(** ** The publication record and its card *)

Record paper : Type := {
  title : Js.value;
  authors : Js.value;
  journal : Js.value;
  year : Js.value;
  doi : Js.value;
  url : Js.value
}.

(** [escapeHtml(text)] *)
Definition escapeHtml (text : Js.value) : string :=
  if negb (Js.truthy text) then ""
  else Html.escape_text (Js.to_string text).

(** The literals of the source are written here with ['] where the source
    has a double quote inside a single-quoted literal (the source literals
    hold no ['] of their own); [lit] puts the double quotes back. *)
Definition dquote : ascii := "034"%char.

Fixpoint lit (s : string) : string :=
  match s with
  | "" => ""
  | String c r => String (if (c =? "'")%char then dquote else c) (lit r)
  end.

(** [createPublicationCard(paper, index)]. The line continuations of the
    source leave the indentation of the following line in the string and no
    line break. *)
Definition createPublicationCard (p : paper) (index : nat) : string :=
  let delay := (100 + Z.of_nat index * 100)%Z in
  let doiUrl :=
    if Js.truthy (doi p)
    then Js.Str ("https://doi.org/" ++ Js.to_string (doi p))
    else Js.or_else (url p) (Js.Str "#") in
  lit "        <article class='publication-card' data-aos='fade-up' data-aos-delay='"
  ++ Js.number_to_string delay ++ lit "'>"
  ++ lit "            <h4>" ++ escapeHtml (title p) ++ lit "</h4>"
  ++ lit "            <p class='authors'>" ++ escapeHtml (authors p) ++ lit "</p>"
  ++ lit "            <p class='venue'>" ++ escapeHtml (journal p) ++ lit ", "
  ++ escapeHtml (year p) ++ lit "</p>"
  ++ lit "            "
  ++ (if Js.truthy (doi p)
      then lit "<a href='" ++ Js.to_string doiUrl
           ++ lit "' class='doi-link' target='_blank' rel='noopener'>"
           ++ lit "                <svg xmlns='http://www.w3.org/2000/svg' viewBox='0 0 24 24' fill='none' stroke='currentColor' stroke-width='2' width='14' height='14'>"
           ++ lit "                    <path d='M18 13v6a2 2 0 0 1-2 2H5a2 2 0 0 1-2-2V8a2 2 0 0 1 2-2h6'/>"
           ++ lit "                    <polyline points='15 3 21 3 21 9'/>"
           ++ lit "                    <line x1='10' y1='14' x2='21' y2='3'/>"
           ++ lit "                </svg>"
           ++ lit "                DOI: " ++ escapeHtml (doi p)
           ++ lit "            </a>"
      else "")
  ++ lit "        </article>"
  ++ lit "    ".

(** the text [escapeHtml] escapes: nothing for a falsy value *)
Definition shown (v : Js.value) : string :=
  if Js.truthy v then Js.to_string v else "".

(** a record in which every field that [escapeHtml] or the [doi] test
    finds falsy holds the empty string instead *)
Definition blank (v : Js.value) : Js.value :=
  if Js.truthy v then v else Js.Str "".

Definition blank_missing (p : paper) : paper :=
  {| title := blank (title p); authors := blank (authors p);
     journal := blank (journal p); year := blank (year p);
     doi := blank (doi p); url := url p |}.

(* ================================================================== *)
(** ** Reading markup back: the tokenizer behind [innerHTML = html]

    Assigning to [container.innerHTML] runs the HTML tokenizer over the
    string. The states a card can reach are modelled after the HTML
    standard (13.2.5): data, tag open, end tag open, tag name, the attribute
    states with quoted values, self-closing start tag, and named character
    references closed by a semicolon. Where the standard leaves this subset
    (comments, unquoted values, other references, elements whose content is
    not tokenized as markup, a tag cut by the end of input) the model
    answers [None], so every [Some] is what the standard prescribes.

    Input-stream preprocessing is folded in: a carriage return reads as a
    line feed, and a line feed right after it is skipped (the flag of the
    data and attribute value states). U+0000 in text is dropped, as the tree
    builder does inside the body. *)

Module Markup.

Inductive token : Type :=
| Chr (c : ascii)
| StartTag (name : string) (attrs : list (string * string)) (selfClosing : bool)
| EndTag (name : string).

Record tag : Type := {
  isEnd : bool;
  tagName : string;
  tagAttrs : list (string * string)
}.

Inductive state : Type :=
| Data (afterCR : bool)
| CharRefData (ref : string)
| TagOpen
| EndTagOpen
| TagName (t : tag)
| BeforeAttrName (t : tag)
| AttrName (t : tag) (n : string)
| AfterAttrName (t : tag) (n : string)
| BeforeAttrValue (t : tag) (n : string)
| AttrValue (afterCR : bool) (q : ascii) (t : tag) (n v : string)
| CharRefAttr (q : ascii) (t : tag) (n v : string) (ref : string)
| AfterAttrValue (t : tag)
| SelfClosing (t : tag).

Definition NUL : ascii := "000"%char.
Definition TAB : ascii := "009"%char.
Definition LF : ascii := "010"%char.
Definition FF : ascii := "012"%char.
Definition CR : ascii := "013"%char.

Definition is_space (c : ascii) : bool :=
  (c =? TAB)%char || (c =? LF)%char || (c =? FF)%char || (c =? CR)%char
  || (c =? " ")%char.

Definition between (lo hi : nat) (c : ascii) : bool :=
  (lo <=? nat_of_ascii c)%nat && (nat_of_ascii c <=? hi)%nat.

Definition is_upper : ascii -> bool := between 65 90.
Definition is_lower : ascii -> bool := between 97 122.
Definition is_digit : ascii -> bool := between 48 57.
Definition is_alpha (c : ascii) : bool := is_upper c || is_lower c.
Definition is_alnum (c : ascii) : bool := is_alpha c || is_digit c.

Definition lower (c : ascii) : ascii :=
  if is_upper c then ascii_of_nat (nat_of_ascii c + 32) else c.

Definition snoc (s : string) (c : ascii) : string := s ++ String c "".

(** the named references of the model *)
Definition named_ref (ref : string) : option ascii :=
  if (ref =? "amp") then Some "&"%char
  else if (ref =? "lt") then Some "<"%char
  else if (ref =? "gt") then Some ">"%char
  else if (ref =? "quot") then Some dquote
  else if (ref =? "nbsp") then Some Html.nbsp
  else None.

Definition has_attr (n : string) (l : list (string * string)) : bool :=
  existsb (fun a => fst a =? n) l.

(** a repeated attribute name is dropped, the first one stays *)
Definition add_attr (t : tag) (n v : string) : tag :=
  if has_attr n (tagAttrs t) then t
  else {| isEnd := isEnd t; tagName := tagName t;
          tagAttrs := tagAttrs t ++ [(n, v)] |}.

(** elements after whose start tag the tokenizer leaves the data state *)
Definition switches_state (n : string) : bool :=
  existsb (String.eqb n)
    ["title"; "textarea"; "style"; "xmp"; "iframe"; "noembed"; "noframes";
     "script"; "noscript"; "plaintext"].

Definition start_tag (c : ascii) (e : bool) : tag :=
  {| isEnd := e; tagName := String (lower c) ""; tagAttrs := [] |}.

Definition name_snoc (t : tag) (c : ascii) : tag :=
  {| isEnd := isEnd t; tagName := snoc (tagName t) (lower c);
     tagAttrs := tagAttrs t |}.

(** the tag is complete: its token, and back to the data state *)
Definition emit_tag (t : tag) (selfClosing : bool) : option (list token * state) :=
  if isEnd t then Some ([EndTag (tagName t)], Data false)
  else if switches_state (tagName t) then None
  else Some ([StartTag (tagName t) (tagAttrs t) selfClosing], Data false).

Definition goto (st : state) : option (list token * state) := Some ([], st).

(** one character consumed: the tokens emitted and the next state *)
Definition step (st : state) (c : ascii) : option (list token * state) :=
  match st with
  | Data cr =>
      if (c =? LF)%char && cr then goto (Data false)
      else if (c =? "&")%char then goto (CharRefData "")
      else if (c =? "<")%char then goto TagOpen
      else if (c =? NUL)%char then goto (Data false)
      else if (c =? CR)%char then Some ([Chr LF], Data true)
      else Some ([Chr c], Data false)
  | CharRefData ref =>
      if (c =? ";")%char then
        match named_ref ref with
        | Some x => Some ([Chr x], Data false)
        | None => None
        end
      else if is_alnum c then goto (CharRefData (snoc ref c))
      else None
  | TagOpen =>
      if (c =? "/")%char then goto EndTagOpen
      else if is_alpha c then goto (TagName (start_tag c false))
      else None
  | EndTagOpen =>
      if is_alpha c then goto (TagName (start_tag c true))
      else None
  | TagName t =>
      if is_space c then goto (BeforeAttrName t)
      else if (c =? "/")%char then goto (SelfClosing t)
      else if (c =? ">")%char then emit_tag t false
      else if (c =? NUL)%char then None
      else goto (TagName (name_snoc t c))
  | BeforeAttrName t =>
      if is_space c then goto (BeforeAttrName t)
      else if (c =? "/")%char then goto (SelfClosing t)
      else if (c =? ">")%char then emit_tag t false
      else if (c =? "=")%char || (c =? NUL)%char then None
      else goto (AttrName t (String (lower c) ""))
  | AttrName t n =>
      if is_space c then goto (AfterAttrName t n)
      else if (c =? "/")%char then goto (SelfClosing (add_attr t n ""))
      else if (c =? ">")%char then emit_tag (add_attr t n "") false
      else if (c =? "=")%char then goto (BeforeAttrValue t n)
      else if (c =? NUL)%char then None
      else goto (AttrName t (snoc n (lower c)))
  | AfterAttrName t n =>
      if is_space c then goto (AfterAttrName t n)
      else if (c =? "/")%char then goto (SelfClosing (add_attr t n ""))
      else if (c =? "=")%char then goto (BeforeAttrValue t n)
      else if (c =? ">")%char then emit_tag (add_attr t n "") false
      else if (c =? NUL)%char then None
      else goto (AttrName (add_attr t n "") (String (lower c) ""))
  | BeforeAttrValue t n =>
      if is_space c then goto (BeforeAttrValue t n)
      else if (c =? dquote)%char || (c =? "'")%char then
        goto (AttrValue false c t n "")
      else None
  | AttrValue cr q t n v =>
      if (c =? LF)%char && cr then goto (AttrValue false q t n v)
      else if (c =? q)%char then goto (AfterAttrValue (add_attr t n v))
      else if (c =? "&")%char then goto (CharRefAttr q t n v "")
      else if (c =? NUL)%char then None
      else if (c =? CR)%char then goto (AttrValue true q t n (snoc v LF))
      else goto (AttrValue false q t n (snoc v c))
  | CharRefAttr q t n v ref =>
      if (c =? ";")%char then
        match named_ref ref with
        | Some x => goto (AttrValue false q t n (snoc v x))
        | None => None
        end
      else if is_alnum c then goto (CharRefAttr q t n v (snoc ref c))
      else None
  | AfterAttrValue t =>
      if is_space c then goto (BeforeAttrName t)
      else if (c =? "/")%char then goto (SelfClosing t)
      else if (c =? ">")%char then emit_tag t false
      else None
  | SelfClosing t =>
      if (c =? ">")%char then emit_tag t true
      else None
  end.

(** the tokenizer run over a piece of markup, from a state *)
Fixpoint feed (st : state) (s : string) : option (list token * state) :=
  match s with
  | "" => Some ([], st)
  | String c r =>
      match step st c with
      | Some (out, st') =>
          match feed st' r with
          | Some (out', st'') => Some ((out ++ out')%list, st'')
          | None => None
          end
      | None => None
      end
  end.

(** [innerHTML = html], as the token stream of the new children; the input
    has to end in the data state *)
Definition parse (html : string) : option (list token) :=
  match feed (Data false) html with
  | Some (out, Data _) => Some out
  | _ => None
  end.

(** *** What a reader of the container finds in the tokens *)

Definition attr (n : string) (l : list (string * string)) : option string :=
  option_map snd (find (fun a => fst a =? n) l).

Definition is_start (n : string) (t : token) : bool :=
  match t with
  | StartTag m _ _ => m =? n
  | _ => false
  end.

(** the elements of a given name *)
Definition elements (n : string) (l : list token) : list token :=
  filter (is_start n) l.

(** the cards: the [article] elements *)
Definition cards (l : list token) : nat := length (elements "article" l).

Definition href (t : token) : option string :=
  match t with
  | StartTag _ a _ => attr "href" a
  | _ => None
  end.

(** the targets of the links, the [a] elements, in document order *)
Definition links (l : list token) : list (option string) :=
  map href (elements "a" l).

(** the text, as [textContent] reads it *)
Fixpoint text (l : list token) : string :=
  match l with
  | [] => ""
  | Chr c :: r => String c (text r)
  | _ :: r => text r
  end.

Definition chars (s : string) : list token :=
  map Chr (list_ascii_of_string s).

(** the characters copied as they are: in text all but U+0000 and the
    carriage return; inside an attribute value also not the closing quote
    and not the ampersand *)
Definition text_plain (c : ascii) : bool :=
  negb (c =? NUL)%char && negb (c =? CR)%char.

Definition attr_plain (c : ascii) : bool :=
  text_plain c && negb (c =? dquote)%char && negb (c =? "&")%char.

Fixpoint all_chars (P : ascii -> bool) (s : string) : bool :=
  match s with
  | "" => true
  | String c r => P c && all_chars P r
  end.

End Markup.

(* ================================================================== *)
(** ** The tokens of a card

    What the tokenizer is expected to give for the markup of one card, for
    stating what the container holds after [innerHTML = html]. *)

Module Card.

Import Markup.

Definition digit_or_minus (c : ascii) : bool :=
  is_digit c || (c =? "-")%char.

Definition spaces (n : nat) : list token := repeat (Chr " ") n.

Definition link_tokens (target D : string) : list token :=
  (StartTag "a" [("href", target); ("class", "doi-link"); ("target", "_blank");
                 ("rel", "noopener")] false
   :: spaces 16
   ++ StartTag "svg" [("xmlns", "http://www.w3.org/2000/svg");
                      ("viewbox", "0 0 24 24"); ("fill", "none");
                      ("stroke", "currentColor"); ("stroke-width", "2");
                      ("width", "14"); ("height", "14")] false
   :: spaces 20
   ++ StartTag "path"
        [("d", "M18 13v6a2 2 0 0 1-2 2H5a2 2 0 0 1-2-2V8a2 2 0 0 1 2-2h6")] true
   :: spaces 20
   ++ StartTag "polyline" [("points", "15 3 21 3 21 9")] true
   :: spaces 20
   ++ StartTag "line" [("x1", "10"); ("y1", "14"); ("x2", "21"); ("y2", "3")] true
   :: spaces 16
   ++ EndTag "svg"
   :: spaces 16
   ++ chars "DOI: " ++ chars D
   ++ spaces 12
   ++ [EndTag "a"])%list.

Definition card_tokens (delay T A J Y : string) (link : option (string * string))
  : list token :=
  (spaces 8
   ++ StartTag "article" [("class", "publication-card"); ("data-aos", "fade-up");
                          ("data-aos-delay", delay)] false
   :: spaces 12
   ++ StartTag "h4" [] false :: chars T ++ EndTag "h4"
   :: spaces 12
   ++ StartTag "p" [("class", "authors")] false :: chars A ++ EndTag "p"
   :: spaces 12
   ++ StartTag "p" [("class", "venue")] false
   :: chars J ++ chars ", " ++ chars Y ++ EndTag "p"
   :: spaces 12
   ++ match link with
      | Some (target, D) => link_tokens target D
      | None => []
      end
   ++ spaces 8
   ++ EndTag "article"
   :: spaces 4)%list.

(** [s], put where text goes, is read back as the text [S] *)
Definition reads (s S : string) : Prop :=
  exists cr, feed (Data false) s = Some (chars S, Data cr).

(** a [doi] that stays inside the quotes of its attribute *)
Definition plain_doi (p : paper) : Prop :=
  Js.truthy (doi p) = true ->
  all_chars attr_plain (Js.to_string (doi p)) = true.

(** [tss] holds, record by record and in the order of the list, the tokens
    of the card of each record, each with one [article] element *)
Inductive cards_in_order : nat -> list paper -> list (list token) -> Prop :=
| no_cards : forall i, cards_in_order i [] []
| next_card : forall i p l ts tss,
    feed (Data false) (createPublicationCard p i) = Some (ts, Data false) ->
    cards ts = 1 ->
    cards_in_order (S i) l tss ->
    cards_in_order i (p :: l) (ts :: tss).

(** [n] spaces *)
Definition blanks (n : nat) : string := string_of_list_ascii (repeat " "%char n).

(** what a visitor reads in a card: the texts, between the indentation the
    template leaves around them *)
Definition card_text (T A J Y : string) (D : option string) : string :=
  blanks 20 ++ T ++ blanks 12 ++ A ++ blanks 12 ++ J ++ ", " ++ Y ++ blanks 12
  ++ match D with
     | Some d => blanks 108 ++ "DOI: " ++ d ++ blanks 12
     | None => ""
     end
  ++ blanks 12.

(** the text fields of a record hold no U+0000 and no carriage return *)
Definition plain_texts (p : paper) : Prop :=
  all_chars text_plain (shown (title p)) = true
  /\ all_chars text_plain (shown (authors p)) = true
  /\ all_chars text_plain (shown (journal p)) = true
  /\ all_chars text_plain (shown (year p)) = true
  /\ all_chars text_plain (shown (doi p)) = true.

Definition no_angle (c : ascii) : bool :=
  negb (c =? "<")%char && negb (c =? ">")%char.

End Card.

(* ================================================================== *)
(** ** Sample records *)

Definition sample : paper :=
  {| title := Js.Str "Risk <prediction> & AI";
     authors := Js.Str "Rossi M, Bianchi L";
     journal := Js.Str "J Clin Microbiol";
     year := Js.Number 2024;
     doi := Js.Str "10.1000/xyz123";
     url := Js.Undefined |}.

(** a record with a [doi] field that holds the empty string, and a [url] *)
Definition empty_doi : paper :=
  {| title := Js.Str "A preprint";
     authors := Js.Str "Rossi M";
     journal := Js.Str "medRxiv";
     year := Js.Number 2025;
     doi := Js.Str "";
     url := Js.Str "https://example.org/preprint" |}.

(** a record with nothing but a journal *)
Definition journal_only : paper :=
  {| title := Js.Undefined;
     authors := Js.Undefined;
     journal := Js.Str "medRxiv";
     year := Js.Undefined;
     doi := Js.Undefined;
     url := Js.Undefined |}.

(** a record whose [doi] text holds a double quote followed by markup *)
Definition quoted_doi : paper :=
  {| title := Js.Str "A paper";
     authors := Js.Str "Rossi M";
     journal := Js.Str "J";
     year := Js.Number 2025;
     doi := Js.Str (lit "10.1000/x'></a></article><article class='publication-card'><a href='#");
     url := Js.Undefined |}.

Definition img_doi : paper :=
  {| title := Js.Str "A paper";
     authors := Js.Str "Rossi M";
     journal := Js.Str "J";
     year := Js.Number 2025;
     doi := Js.Str (lit "10.1000/x'><img src='y");
     url := Js.Undefined |}.

(* ================================================================== *)
(** ** The publication feed: [loadPublications]

    The page holds the two regions the routine looks up by id, each with
    its [style.display] and its [innerHTML]; either may be missing from the
    markup. The log of requests and the error console are part of the state
    so that what the routine does not do can be stated. *)

Module Feed.

Record region : Type := {
  display : option string;
  innerHTML : string
}.

Record page : Type := {
  container : option region;          (* #publications-container *)
  noPublicationsMsg : option region;  (* #no-publications *)
  aosRefreshes : option nat;          (* AOS, when the library is loaded *)
  requests : list string;             (* every URL given to fetch *)
  console : list string               (* console.error *)
}.

(** What [data.citingPapers] can be after [response.json()]. An array is
    either made of records only, or has a first element that is null, with
    records before it and anything after it: reading [paper.doi] of null
    throws. A value that is truthy and no array has no [map];
    [lengthIsZero] tells whether its [length] is the number 0. *)
Inductive field : Type :=
| FieldAbsent
| FieldFalsy
| FieldArray (papers : list paper)
| FieldNullAt (before : list paper) (after : list (option paper))
| FieldOther (lengthIsZero : bool).

(** The parsed body: [null], or a value whose property can be read. *)
Inductive data : Type :=
| DataNull
| DataObject (citingPapers : field).

Inductive body : Type :=
| Malformed
| Json (d : data).

(** How the request settles. *)
Inductive outcome : Type :=
| NetworkError
| Response (ok : bool) (b : body).

Inductive error : Type :=
| FetchRejected
| LoadFailed          (* new Error('Failed to load publications') *)
| JsonRejected
| TypeError.

Definition message (e : error) : string :=
  match e with
  | FetchRejected => "TypeError: Failed to fetch"
  | LoadFailed => "Error: Failed to load publications"
  | JsonRejected => "SyntaxError"
  | TypeError => "TypeError"
  end.

(** Statements that may throw, over the page; the page as it was when the
    exception left is kept for the handler. *)
Definition M (A : Type) : Type := page -> (error + A) * page.

Definition ret {A} (a : A) : M A := fun s => (inr a, s).
Definition throw {A} (e : error) : M A := fun s => (inl e, s).
Definition bind {A B} (m : M A) (k : A -> M B) : M B :=
  fun s => match m s with
           | (inl e, s') => (inl e, s')
           | (inr a, s') => k a s'
           end.
Definition modify (f : page -> page) : M unit := fun s => (inr tt, f s).

Notation "x <- m ;; k" := (bind m (fun x => k))
  (at level 61, m at next level, right associativity).
Notation "m ;;; k" := (bind m (fun _ => k))
  (at level 61, right associativity).

Definition set_display (d : string) (r : region) : region :=
  {| display := Some d; innerHTML := innerHTML r |}.

Definition set_innerHTML (h : string) (r : region) : region :=
  {| display := display r; innerHTML := h |}.

Definition on_container (f : region -> region) (s : page) : page :=
  {| container := option_map f (container s);
     noPublicationsMsg := noPublicationsMsg s;
     aosRefreshes := aosRefreshes s;
     requests := requests s;
     console := console s |}.

(** [if (noPublicationsMsg) { noPublicationsMsg... }] *)
Definition on_noPublicationsMsg (f : region -> region) (s : page) : page :=
  {| container := container s;
     noPublicationsMsg := option_map f (noPublicationsMsg s);
     aosRefreshes := aosRefreshes s;
     requests := requests s;
     console := console s |}.

(** [if (typeof AOS !== 'undefined') { AOS.refresh(); }] *)
Definition aos_refresh (s : page) : page :=
  {| container := container s;
     noPublicationsMsg := noPublicationsMsg s;
     aosRefreshes := option_map S (aosRefreshes s);
     requests := requests s;
     console := console s |}.

Definition console_error (m : string) (s : page) : page :=
  {| container := container s;
     noPublicationsMsg := noPublicationsMsg s;
     aosRefreshes := aosRefreshes s;
     requests := requests s;
     console := console s ++ [m] |}.

(** [await fetch(url)] *)
Definition fetch (net : outcome) (u : string) : M (bool * body) :=
  fun s =>
    let s' := {| container := container s;
                 noPublicationsMsg := noPublicationsMsg s;
                 aosRefreshes := aosRefreshes s;
                 requests := requests s ++ [u];
                 console := console s |} in
    match net with
    | NetworkError => (inl FetchRejected, s')
    | Response ok b => (inr (ok, b), s')
    end.

(** [await response.json()] *)
Definition json (b : body) : M data :=
  match b with
  | Malformed => throw JsonRejected
  | Json d => ret d
  end.

(** [data.citingPapers || []] *)
Definition citingPapers_or_empty (d : data) : M field :=
  match d with
  | DataNull => throw TypeError
  | DataObject FieldAbsent | DataObject FieldFalsy => ret (FieldArray [])
  | DataObject f => ret f
  end.

(** [citingPapers.length === 0] *)
Definition length_is_zero (f : field) : bool :=
  match f with
  | FieldArray l => (length l =? 0)%nat
  | FieldNullAt _ _ => false
  | FieldOther z => z
  | FieldAbsent | FieldFalsy => false
  end.

(** [Array.prototype.map] with the index handed to the callback *)
Fixpoint map_from {A B} (f : A -> nat -> B) (i : nat) (l : list A) : list B :=
  match l with
  | [] => []
  | x :: r => f x i :: map_from f (S i) r
  end.

(** [Array.prototype.join] *)
Fixpoint join (sep : string) (l : list string) : string :=
  match l with
  | [] => ""
  | [x] => x
  | x :: r => x ++ sep ++ join sep r
  end.

(** [citingPapers.map(function(paper, index) {...}).join('')] *)
Definition renderPublications (l : list paper) : string :=
  join "" (map_from createPublicationCard 0 l).

Definition map_join (f : field) : M string :=
  match f with
  | FieldArray l => ret (renderPublications l)
  | FieldNullAt _ _ => throw TypeError    (* the callback, at the null element *)
  | _ => throw TypeError                  (* [map] is no function *)
  end.

(** the statements of the [try] block *)
Definition try_block (net : outcome) : M unit :=
  response <- fetch net "data/publications.json" ;;
  (if negb (fst response) then throw LoadFailed else ret tt) ;;;
  data <- json (snd response) ;;
  citingPapers <- citingPapers_or_empty data ;;
  if length_is_zero citingPapers then
    modify (on_noPublicationsMsg (set_display "block")) ;;;
    modify (on_container (set_display "none"))
  else
    modify (on_noPublicationsMsg (set_display "none")) ;;;
    modify (on_container (set_display "grid")) ;;;
    html <- map_join citingPapers ;;
    modify (on_container (set_innerHTML html)) ;;;
    modify aos_refresh.

(** the statements of the [catch] block *)
Definition catch_block (e : error) (s : page) : page :=
  let s1 := console_error ("Error loading publications: " ++ message e) s in
  let s2 := on_noPublicationsMsg (set_display "block") s1 in
  on_container (set_display "none") s2.

(** [loadPublications()], with the way its request settles *)
Definition loadPublications (net : outcome) (s : page) : page :=
  match container s with
  | None => s
  | Some _ =>
      match try_block net s with
      | (inr _, s') => s'
      | (inl e, s') => catch_block e s'
      end
  end.

(** what a visitor can see of the page *)
Definition visible (s : page) : option region * option region :=
  (container s, noPublicationsMsg s).

Definition has_display (d : string) (r : option region) : Prop :=
  match r with
  | Some x => display x = Some d
  | None => True
  end.


(** the message stands alone: the container is hidden *)
Definition empty_state (s : page) : Prop :=
  (exists c, container s = Some c /\ display c = Some "none")
  /\ has_display "block" (noPublicationsMsg s).

(** the records the routine gets to render: those of a response that is
    ok and carries a list made of records only *)
Definition records (net : outcome) : list paper :=
  match net with
  | Response true (Json (DataObject (FieldArray l))) => l
  | _ => []
  end.


(** a page with both regions and the animation library loaded *)
Definition served : page :=
  {| container := Some {| display := None; innerHTML := "" |};
     noPublicationsMsg :=
       Some {| display := Some "none"; innerHTML := "No publications yet." |};
     aosRefreshes := Some 0;
     requests := [];
     console := [] |}.

(** the requests after which there is nothing to show: an empty list, no
    list field, and the three ways a fetch fails *)
Inductive nothing_to_show : outcome -> Prop :=
| empty_list : nothing_to_show (Response true (Json (DataObject (FieldArray []))))
| missing_field : nothing_to_show (Response true (Json (DataObject FieldAbsent)))
| network_failure : nothing_to_show NetworkError
| bad_status : forall b, nothing_to_show (Response false b)
| bad_body : nothing_to_show (Response true Malformed).

(** the request settles in a way that makes the [try] block throw *)
Definition fails (net : outcome) : bool :=
  match net with
  | NetworkError => true
  | Response false _ => true
  | Response true Malformed => true
  | Response true (Json DataNull) => true
  | Response true (Json (DataObject (FieldNullAt _ _))) => true
  | Response true (Json (DataObject (FieldOther z))) => negb z
  | Response true (Json (DataObject _)) => false
  end.

End Feed.

(* ================================================================== *)
(** ** The citation copy: [showToast] and [copyToClipboard]

    The document is the list of the children of [body]. A node is known by
    the identity it got from [createElement]; timers wait in a queue until
    the event loop fires them. *)

Module Clipboard.

Record node : Type := {
  nid : nat;
  tagName : string;
  classList : list string;
  textContent : string;
  value : string
}.

Inductive timer : Type :=
| AddShow (id : nat)       (* toast.classList.add('show') *)
| Hide (id : nat)          (* toast.classList.remove('show'), then RemoveToast *)
| RemoveToast (id : nat).  (* toast.remove() *)

Record document : Type := {
  body : list node;
  nextId : nat;
  timers : list (nat * timer);     (* delay in ms, callback *)
  selection : option nat;          (* the node whose text is selected *)
  clipboard : option string
}.

Definition has_class (c : string) (n : node) : bool :=
  existsb (String.eqb c) (classList n).

(** [document.querySelector('.toast')] followed by [remove()]: the first
    node of class toast leaves the document *)
Fixpoint remove_first (p : node -> bool) (l : list node) : list node :=
  match l with
  | [] => []
  | n :: r => if p n then r else n :: remove_first p r
  end.

Definition is_node (id : nat) (n : node) : bool := (nid n =? id)%nat.

Definition confirmation : string := "Citation copied to clipboard!".
Definition failure : string := "Failed to copy citation".

(** [showToast(message)] *)
Definition showToast (message : string) (d : document) : document :=
  let body1 := remove_first (has_class "toast") (body d) in
  let toast := {| nid := nextId d; tagName := "div"; classList := ["toast"];
                  textContent := message; value := "" |} in
  {| body := body1 ++ [toast];
     nextId := S (nextId d);
     timers := timers d ++ [(10, AddShow (nid toast)); (3000, Hide (nid toast))];
     selection := selection d;
     clipboard := clipboard d |}.

Definition add_class (c : string) (n : node) : node :=
  {| nid := nid n; tagName := tagName n;
     classList := if has_class c n then classList n else classList n ++ [c];
     textContent := textContent n; value := value n |}.

Definition remove_class (c : string) (n : node) : node :=
  {| nid := nid n; tagName := tagName n;
     classList := filter (fun x => negb (String.eqb c x)) (classList n);
     textContent := textContent n; value := value n |}.

Definition update_node (id : nat) (f : node -> node) (l : list node) : list node :=
  map (fun n => if is_node id n then f n else n) l.

(** a timer callback of [showToast] runs *)
Definition fire (t : timer) (d : document) : document :=
  match t with
  | AddShow id =>
      {| body := update_node id (add_class "show") (body d);
         nextId := nextId d; timers := timers d;
         selection := selection d; clipboard := clipboard d |}
  | Hide id =>
      {| body := update_node id (remove_class "show") (body d);
         nextId := nextId d; timers := timers d ++ [(300, RemoveToast id)];
         selection := selection d; clipboard := clipboard d |}
  | RemoveToast id =>
      {| body := remove_first (is_node id) (body d);
         nextId := nextId d; timers := timers d;
         selection := selection d; clipboard := clipboard d |}
  end.

(** [navigator.clipboard.writeText(text)]: fulfilled, rejected, or not
    there at all (reading [writeText] of undefined throws inside [try]) *)
Inductive write : Type :=
| WriteFulfilled
| WriteRejected
| ClipboardMissing.

(** [document.execCommand('copy')]: its answer, or an exception *)
Inductive exec : Type :=
| ExecReturns (copied : bool)
| ExecThrows.

(** how the promise of an [async] function settles *)
Inductive settled : Type :=
| Fulfilled (d : document)
| Rejected (d : document).

Definition set_clipboard (t : string) (d : document) : document :=
  {| body := body d; nextId := nextId d; timers := timers d;
     selection := selection d; clipboard := Some t |}.

(** [createElement('textarea')] up to [textArea.select()] *)
Definition append_textArea (text : string) (d : document) : document :=
  let textArea := {| nid := nextId d; tagName := "textarea"; classList := [];
                     textContent := ""; value := text |} in
  {| body := body d ++ [textArea];
     nextId := S (nextId d);
     timers := timers d;
     selection := Some (nid textArea);
     clipboard := clipboard d |}.

(** [document.body.removeChild(node)] throws when the node is no child *)
Definition removeChild (id : nat) (d : document) : settled :=
  if existsb (is_node id) (body d) then
    Fulfilled {| body := remove_first (is_node id) (body d);
                 nextId := nextId d; timers := timers d;
                 selection := selection d; clipboard := clipboard d |}
  else Rejected d.

(** the [catch] block of [copyToClipboard] *)
Definition fallback (text : string) (e : exec) (d : document) : settled :=
  let textArea := nextId d in
  let d1 := append_textArea text d in
  let d2 :=
    match e with
    | ExecReturns copied =>
        showToast confirmation (if copied then set_clipboard text d1 else d1)
    | ExecThrows => showToast failure d1
    end in
  removeChild textArea d2.

(** [copyToClipboard(text)] *)
Definition copyToClipboard (text : string) (w : write) (e : exec) (d : document)
  : settled :=
  match w with
  | WriteFulfilled => Fulfilled (showToast confirmation (set_clipboard text d))
  | WriteRejected | ClipboardMissing => fallback text e d
  end.

(** node identities handed out so far are below [nextId] *)
Definition fresh_ids (d : document) : Prop :=
  Forall (fun n => nid n < nextId d) (body d).

(** the last child of [body] is a toast with the text [m], and the timer
    that gives it the class show is waiting *)
Definition notifies (m : string) (d : document) : Prop :=
  exists l t, body d = (l ++ [t])%list /\ has_class "toast" t = true
              /\ textContent t = m /\ In (10, AddShow (nid t)) (timers d).

(** the toasts in the document *)
Definition toasts (d : document) : nat :=
  length (filter (has_class "toast") (body d)).

(** the document a settled copy leaves *)
Definition after (s : settled) : document :=
  match s with
  | Fulfilled d | Rejected d => d
  end.

(** the click listener [initCitationCopy] gives a cite button, run with the
    value of its [data-citation] attribute ([None] when the button has
    none) up to the point where the copy has settled *)
Definition citeClick (citation : option string) (w : write) (e : exec)
  (d : document) : document :=
  match citation with
  | Some c => if c =? "" then d else after (copyToClipboard c w e d)
  | None => d
  end.

(** what happens to the document over time: a cite button is clicked, or a
    timer callback runs *)
Inductive action : Type :=
| Click (citation : option string) (w : write) (e : exec)
| Timer (t : timer).

Definition act (a : action) (d : document) : document :=
  match a with
  | Click c w e => citeClick c w e d
  | Timer t => fire t d
  end.

Definition run_actions (l : list action) (d : document) : document :=
  fold_left (fun d a => act a d) l d.

End Clipboard.

(* ================================================================== *)
(** ** The header scroll effect: [initHeaderScroll]

    The closure variables [lastScrollY] and [ticking], the header element
    found at start-up (if any), [window.scrollY] and the callbacks waiting
    for the next animation frame. Every waiting callback is [updateHeader]. *)

Module HeaderScroll.

Record state : Type := {
  header : option (list string);   (* classList of #header *)
  scrollY : Z;                     (* window.scrollY *)
  lastScrollY : Z;
  ticking : bool;
  frameRequests : nat;             (* requestAnimationFrame(updateHeader) pending *)
  frames : list nat                (* updateHeader runs in each past frame *)
}.

Inductive event : Type :=
| Scroll (y : Z)    (* the window scrolled to y and the listener runs *)
| Frame.            (* the browser runs the animation frame callbacks *)

Definition classList_add (c : string) (l : list string) : list string :=
  if existsb (String.eqb c) l then l else l ++ [c].

Definition classList_remove (c : string) (l : list string) : list string :=
  filter (fun x => negb (String.eqb c x)) l.

(** [updateHeader()]; with no header element [header.classList] throws and
    the assignment to [ticking] is not reached *)
Definition updateHeader (s : state) : state :=
  match header s with
  | None => s
  | Some cl =>
      {| header := Some (if (scrollY s >? 100)%Z then classList_add "scrolled" cl
                         else classList_remove "scrolled" cl);
         scrollY := scrollY s;
         lastScrollY := lastScrollY s;
         ticking := false;
         frameRequests := frameRequests s;
         frames := frames s |}
  end.

(** the scroll listener *)
Definition onScroll (s : state) : state :=
  {| header := header s;
     scrollY := scrollY s;
     lastScrollY := scrollY s;
     ticking := true;
     frameRequests := if ticking s then frameRequests s else S (frameRequests s);
     frames := frames s |}.

Definition step (e : event) (s : state) : state :=
  match e with
  | Scroll y =>
      onScroll {| header := header s; scrollY := y; lastScrollY := lastScrollY s;
                  ticking := ticking s; frameRequests := frameRequests s;
                  frames := frames s |}
  | Frame =>
      let n := frameRequests s in
      let s' := Nat.iter n updateHeader
                  {| header := header s; scrollY := scrollY s;
                     lastScrollY := lastScrollY s; ticking := ticking s;
                     frameRequests := 0; frames := frames s |} in
      {| header := header s'; scrollY := scrollY s'; lastScrollY := lastScrollY s';
         ticking := ticking s'; frameRequests := frameRequests s';
         frames := frames s' ++ [n] |}
  end.

Definition run (evs : list event) (s : state) : state :=
  fold_left (fun s e => step e s) evs s.

(** the state [initHeaderScroll] leaves behind *)
Definition init (h : option (list string)) (y : Z) : state :=
  {| header := h; scrollY := y; lastScrollY := 0; ticking := false;
     frameRequests := 0; frames := [] |}.

(** at most one callback waits; one that waits has the flag set; no past
    frame ran more than one update *)
Definition coalesced (s : state) : Prop :=
  frameRequests s <= 1
  /\ (frameRequests s = 1 -> ticking s = true)
  /\ Forall (fun n => n <= 1) (frames s).

(** the header carries the class scrolled *)
Definition scrolled (s : state) : bool :=
  match header s with
  | Some cl => existsb (String.eqb "scrolled") cl
  | None => false
  end.

(** the classes of the header other than scrolled *)
Definition other_classes (s : state) : option (list string) :=
  option_map (filter (fun x => negb (String.eqb "scrolled" x))) (header s).

(** with a header in the page: the flag is set exactly while a callback
    waits, and the classes other than scrolled are those of [cl] *)
Definition responsive (cl : list string) (s : state) : Prop :=
  (exists l, header s = Some l)
  /\ other_classes s
     = Some (filter (fun x => negb (String.eqb "scrolled" x)) cl)
  /\ ((ticking s = false /\ frameRequests s = 0)
      \/ (ticking s = true /\ frameRequests s = 1)).

(** without a header: the one callback that was ever requested either
    waits or has run *)
Definition stuck (s : state) : Prop :=
  header s = None
  /\ ((ticking s = false /\ frameRequests s = 0 /\ list_sum (frames s) = 0)
      \/ (ticking s = true /\ frameRequests s + list_sum (frames s) = 1)).

End HeaderScroll.

(* ================================================================== *)
(** ** The mobile navigation: [initNavigation]

    The class lists of the toggle button and of the menu, each missing when
    the page has no such element. A click is given by the elements with a
    listener that lie on the way from its target up to the document,
    innermost first. *)

Module Navigation.

Record state : Type := {
  navToggle : option (list string);   (* .nav-toggle *)
  navMenu : option (list string)      (* .nav-menu *)
}.

(** on the way up from the target of a click *)
Inductive hit : Type :=
| Toggle      (* the toggle button *)
| Link        (* a .nav-link inside the menu *)
| Menu.       (* the menu itself *)

Definition is_toggle (h : hit) : bool :=
  match h with Toggle => true | _ => false end.

(** a link of the menu lies inside the menu *)
Definition in_menu (h : hit) : bool :=
  match h with Link | Menu => true | Toggle => false end.

Definition is_link (h : hit) : bool :=
  match h with Link => true | _ => false end.

(** [classList.toggle(c)] *)
Definition classList_toggle (c : string) (l : list string) : list string :=
  if existsb (String.eqb c) l then HeaderScroll.classList_remove c l
  else HeaderScroll.classList_add c l.

Definition both (f : list string -> list string) (t m : list string)
  : list string * list string :=
  (f t, f m).

(** the listener of the element [h], on the two class lists *)
Definition listener (h : hit) (tm : list string * list string)
  : list string * list string :=
  match h with
  | Toggle => both (classList_toggle "active") (fst tm) (snd tm)
  | Link => both (HeaderScroll.classList_remove "active") (fst tm) (snd tm)
  | Menu => tm
  end.

(** the listener of the document: close when the click was outside *)
Definition outside (path : list hit) (tm : list string * list string)
  : list string * list string :=
  if negb (existsb is_toggle path) && negb (existsb in_menu path)
  then both (HeaderScroll.classList_remove "active") (fst tm) (snd tm)
  else tm.

(** a click bubbles from its target to the document; without the toggle or
    without the menu [initNavigation] has installed nothing *)
Definition click (path : list hit) (s : state) : state :=
  match navToggle s, navMenu s with
  | Some t, Some m =>
      let tm := outside path (fold_left (fun tm h => listener h tm) path (t, m)) in
      {| navToggle := Some (fst tm); navMenu := Some (snd tm) |}
  | _, _ => s
  end.

Definition clicks (l : list (list hit)) (s : state) : state :=
  fold_left (fun s path => click path s) l s.

Definition active (l : list string) : bool := existsb (String.eqb "active") l.

Definition others (l : list string) : list string :=
  filter (fun x => negb (String.eqb "active" x)) l.

(** the menu is open exactly when the toggle shows it *)
Definition in_step (s : state) : Prop :=
  match navToggle s, navMenu s with
  | Some t, Some m => active t = active m
  | _, _ => True
  end.

End Navigation.

(* ================================================================== *)
(** * Properties *)

(** ** The publication feed *)

Import Feed.

Lemma try_block_fetches net s :
  requests (snd (try_block net s)) = (requests s ++ ["data/publications.json"])%list.
Proof.
  unfold try_block, bind, fetch.
  destruct net as [|ok b]; [reflexivity|].
  destruct ok; [|reflexivity].
  destruct b as [|[|[| |l|b a|z]]]; try reflexivity.
  - destruct l; reflexivity.
  - destruct z; reflexivity.
Qed.

(** C7. With no card container in the page, [loadPublications] returns at
    once: the page it leaves is the page it found, so no request has been
    issued, nothing has been logged, and the message element (present or
    not) has the display and the content it had. *)
Theorem loadPublications_without_container :
  forall net s,
    container s = None ->
    loadPublications net s = s
    /\ requests (loadPublications net s) = requests s
    /\ noPublicationsMsg (loadPublications net s) = noPublicationsMsg s.
Proof.
  intros net s H.
  assert (E : loadPublications net s = s).
  { unfold loadPublications. now rewrite H. }
  rewrite E. repeat split.
Qed.

Lemma loadPublications_without_container_witness :
  let s := {| container := None;
              noPublicationsMsg := Some {| display := None; innerHTML := "No publications yet" |};
              aosRefreshes := Some 0; requests := []; console := [] |} in
  loadPublications NetworkError s = s
  /\ requests (loadPublications NetworkError s) = requests s
  /\ noPublicationsMsg (loadPublications NetworkError s) = noPublicationsMsg s.
Proof.
  intro s. apply (loadPublications_without_container NetworkError s). reflexivity.
Defined.

(** C4. An empty list, a missing list field, a network error, a
    non-success status and a body that does not parse all leave the same
    visible page: the container as it was but with display none, and the
    message (when the page has one) as it was but with display block.
    Nothing else a visitor can see changes; the error only reaches the
    console. *)
Theorem nothing_to_show_same_visible_state :
  forall net s c,
    container s = Some c ->
    nothing_to_show net ->
    visible (loadPublications net s)
    = (Some (set_display "none" c),
       option_map (set_display "block") (noPublicationsMsg s))
    /\ empty_state (loadPublications net s).
Proof.
  intros net s c Hc Hn.
  assert (V : visible (loadPublications net s)
              = (Some (set_display "none" c),
                 option_map (set_display "block") (noPublicationsMsg s))).
  { unfold loadPublications, visible. rewrite Hc.
    destruct Hn; cbn; rewrite ?Hc; cbn;
      destruct (noPublicationsMsg s); reflexivity. }
  split; [exact V|].
  unfold visible in V. injection V as Vc Vm.
  unfold empty_state. rewrite Vc, Vm. split.
  - exists (set_display "none" c). split; reflexivity.
  - destruct (noPublicationsMsg s); simpl; auto.
Qed.

Lemma nothing_to_show_same_visible_state_witness :
  let c := {| display := None; innerHTML := "" |} in
  let m := {| display := Some "none"; innerHTML := "No publications yet" |} in
  let s := {| container := Some c; noPublicationsMsg := Some m;
              aosRefreshes := None; requests := []; console := [] |} in
  visible (loadPublications (Response false Malformed) s)
  = (Some (set_display "none" c), option_map (set_display "block") (Some m))
  /\ empty_state (loadPublications (Response false Malformed) s).
Proof.
  intros c m s.
  apply (nothing_to_show_same_visible_state (Response false Malformed) s c).
  - reflexivity.
  - apply bad_status.
Defined.


Lemma loadPublications_empty_state net s c :
  container s = Some c ->
  records net = [] ->
  empty_state (loadPublications net s).
Proof.
  intros Hc Hf. unfold loadPublications. rewrite Hc.
  assert (G : forall s', visible s' = (Some (set_display "none" c),
                 option_map (set_display "block") (noPublicationsMsg s)) ->
              empty_state s').
  { intros s' V. unfold visible in V. injection V as Vc Vm.
    unfold empty_state. rewrite Vc, Vm. split.
    - exists (set_display "none" c). split; reflexivity.
    - destruct (noPublicationsMsg s); simpl; auto. }
  apply G. unfold visible.
  destruct net as [|ok b]; [cbn; rewrite Hc; reflexivity|].
  destruct ok; [|cbn; rewrite Hc; reflexivity].
  destruct b as [|[|[| |l|b a|z]]]; cbn; rewrite ?Hc; cbn;
    try (destruct (noPublicationsMsg s); reflexivity).
  - cbn in Hf. subst l. cbn. rewrite ?Hc.
    destruct (noPublicationsMsg s); reflexivity.
  - destruct z; cbn; rewrite ?Hc; cbn;
      destruct (noPublicationsMsg s); reflexivity.
Qed.

(** what [loadPublications] leaves, outcome by outcome *)
Lemma loadPublications_result net s c :
  container s = Some c ->
  loadPublications net s
  = {| container :=
         Some (match records net with
               | [] => set_display "none" c
               | l => {| display := Some "grid";
                         innerHTML := renderPublications l |}
               end);
       noPublicationsMsg :=
         option_map (set_display (match records net with
                                  | [] => "block"
                                  | _ => "none"
                                  end)) (noPublicationsMsg s);
       aosRefreshes :=
         match records net with
         | [] => aosRefreshes s
         | _ => option_map S (aosRefreshes s)
         end;
       requests := (requests s ++ ["data/publications.json"])%list;
       console :=
         if fails net
         then (console s
               ++ [("Error loading publications: "
                    ++ message (match net with
                                | NetworkError => FetchRejected
                                | Response false _ => LoadFailed
                                | Response true Malformed => JsonRejected
                                | _ => TypeError
                                end))%string])%list
         else console s |}.
Proof.
  intro Hc. unfold loadPublications. rewrite Hc.
  destruct net as [|[|] [|[|[| |[|p l]|b a|[|]]]]]; cbn; rewrite ?Hc; cbn;
    destruct (noPublicationsMsg s); reflexivity.
Qed.

(** X1. In a page that has the card container the routine issues exactly
    one request, to data/publications.json, however the request settles;
    nothing is retried. *)
Theorem loadPublications_one_request :
  forall net s c,
    container s = Some c ->
    requests (loadPublications net s)
    = (requests s ++ ["data/publications.json"])%list.
Proof.
  intros net s c Hc. now rewrite (loadPublications_result net s c Hc).
Qed.

Lemma loadPublications_one_request_witness :
  requests (loadPublications (Response true Malformed) served)
  = (requests served ++ ["data/publications.json"])%list.
Proof.
  apply (loadPublications_one_request (Response true Malformed) served
           {| display := None; innerHTML := "" |}).
  reflexivity.
Defined.



(** X3. [AOS.refresh()] is called once when cards have been rendered and
    the library is loaded, and not at all when the feed carries no record or
    the request fails; a page without the library stays without it. *)
Theorem loadPublications_refreshes_after_render :
  forall net s c,
    container s = Some c ->
    aosRefreshes (loadPublications net s)
    = match records net, aosRefreshes s with
      | _ :: _, Some n => Some (S n)
      | _, r => r
      end.
Proof.
  intros net s c Hc. rewrite (loadPublications_result net s c Hc). cbn.
  destruct (records net), (aosRefreshes s); reflexivity.
Qed.

Lemma loadPublications_refreshes_after_render_witness :
  aosRefreshes (loadPublications
                  (Response true (Json (DataObject (FieldArray [sample]))))
                  served)
  = match records (Response true (Json (DataObject (FieldArray [sample])))),
          aosRefreshes served with
    | _ :: _, Some n => Some (S n)
    | _, r => r
    end.
Proof.
  apply (loadPublications_refreshes_after_render
           (Response true (Json (DataObject (FieldArray [sample])))) served
           {| display := None; innerHTML := "" |}).
  reflexivity.
Defined.

(** X4. The routine never empties the container: when there is nothing to
    render, the markup the container held stays in it (hidden); when there
    are records, the markup is replaced as a whole by their cards. So after
    cards were shown, a later run that fails hides them and keeps them. *)
Theorem loadPublications_keeps_or_replaces_markup :
  forall net net' s c,
    container s = Some c ->
    option_map innerHTML (container (loadPublications net s))
    = Some (match records net with
            | [] => innerHTML c
            | l => renderPublications l
            end)
    /\ (records net' = [] ->
        option_map innerHTML
          (container (loadPublications net' (loadPublications net s)))
        = option_map innerHTML (container (loadPublications net s))).
Proof.
  intros net net' s c Hc.
  rewrite (loadPublications_result net s c Hc). split.
  - cbn. destruct (records net); reflexivity.
  - intro H.
    erewrite (loadPublications_result net') by reflexivity. cbn. rewrite H.
    reflexivity.
Qed.

Lemma loadPublications_keeps_or_replaces_markup_witness :
  let net := Response true (Json (DataObject (FieldArray [sample]))) in
  option_map innerHTML (container (loadPublications net served))
  = Some (match records net with
          | [] => innerHTML {| display := None; innerHTML := "" |}
          | l => renderPublications l
          end)
  /\ (records NetworkError = [] ->
      option_map innerHTML
        (container (loadPublications NetworkError (loadPublications net served)))
      = option_map innerHTML (container (loadPublications net served))).
Proof.
  intro net.
  apply (loadPublications_keeps_or_replaces_markup net NetworkError served
           {| display := None; innerHTML := "" |}).
  reflexivity.
Defined.

(** X5. Running the routine again with a request that settles the same way
    changes nothing a visitor can see. *)
Theorem loadPublications_again_same_view :
  forall net s c,
    container s = Some c ->
    visible (loadPublications net (loadPublications net s))
    = visible (loadPublications net s).
Proof.
  intros net s c Hc.
  rewrite (loadPublications_result net s c Hc).
  erewrite (loadPublications_result net) by reflexivity.
  unfold visible. cbn.
  destruct (records net), (noPublicationsMsg s); reflexivity.
Qed.

Lemma loadPublications_again_same_view_witness :
  visible (loadPublications NetworkError (loadPublications NetworkError served))
  = visible (loadPublications NetworkError served).
Proof.
  apply (loadPublications_again_same_view NetworkError served
           {| display := None; innerHTML := "" |}).
  reflexivity.
Defined.

(* ================================================================== *)
(** ** The citation copy *)

Import Clipboard.

Lemma remove_first_snoc_other (p : node -> bool) l x :
  p x = false ->
  remove_first p (l ++ [x])%list = (remove_first p l ++ [x])%list.
Proof.
  intro Hx. induction l as [|n l IH]; simpl.
  - now rewrite Hx.
  - destruct (p n); [reflexivity|]. now rewrite IH.
Qed.

Lemma remove_first_snoc_found (p : node -> bool) l x :
  existsb p l = true ->
  remove_first p (l ++ [x])%list = (remove_first p l ++ [x])%list.
Proof.
  induction l as [|n l IH]; simpl; [discriminate|].
  destruct (p n); [reflexivity|]. simpl. intro H. now rewrite IH.
Qed.

Lemma remove_first_absent (p : node -> bool) l x :
  existsb p l = false -> p x = true ->
  remove_first p (l ++ [x])%list = l.
Proof.
  intros Hl Hx. induction l as [|n l IH]; simpl.
  - now rewrite Hx.
  - simpl in Hl. apply orb_false_iff in Hl as [Hn Hl].
    rewrite Hn. now rewrite IH.
Qed.

Lemma existsb_snoc (p : node -> bool) l x :
  existsb p (l ++ [x])%list = existsb p l || p x.
Proof.
  rewrite existsb_app. simpl. now rewrite orb_false_r.
Qed.

Lemma fresh_ids_not_found d :
  fresh_ids d -> existsb (is_node (nextId d)) (body d) = false.
Proof.
  unfold fresh_ids. induction 1 as [|n l Hn _ IH]; simpl; [reflexivity|].
  rewrite IH, orb_false_r. unfold is_node. apply Nat.eqb_neq. lia.
Qed.

Lemma remove_first_keeps_absent (p q : node -> bool) l :
  existsb q l = false -> existsb q (remove_first p l) = false.
Proof.
  induction l as [|n l IH]; simpl; [reflexivity|].
  intro H. apply orb_false_iff in H as [Hn Hl].
  destruct (p n); simpl; [exact Hl|]. now rewrite Hn, IH.
Qed.

Lemma showToast_notifies m d : notifies m (showToast m d).
Proof.
  unfold notifies, showToast. simpl.
  eexists. eexists. split; [reflexivity|]. simpl.
  repeat split. apply in_or_app. right. left. reflexivity.
Qed.

(** a notification becomes visible: when its waiting timer fires, the toast
    carries the class show *)
Lemma notification_becomes_visible m d :
  notifies m d ->
  exists l t,
    In (10, AddShow (nid t)) (timers d) /\ textContent t = m
    /\ body (fire (AddShow (nid t)) d) = (l ++ [add_class "show" t])%list.
Proof.
  intros [l [t [B [_ [M I]]]]].
  exists (update_node (nid t) (add_class "show") l), t.
  split; [exact I|]. split; [exact M|].
  simpl. rewrite B. unfold update_node. rewrite map_app. simpl.
  unfold is_node at 2. now rewrite Nat.eqb_refl.
Qed.

(** the body after the fallback path, written out *)
Lemma fallback_body text e d :
  fresh_ids d ->
  exists d',
    fallback text e d = Fulfilled d'
    /\ body d' = (remove_first (has_class "toast") (body d)
                  ++ [{| nid := S (nextId d); tagName := "div";
                         classList := ["toast"];
                         textContent := match e with
                                        | ExecReturns _ => confirmation
                                        | ExecThrows => failure
                                        end;
                         value := "" |}])%list.
Proof.
  intro Hf. pose proof (fresh_ids_not_found d Hf) as Hn.
  set (ta := {| nid := nextId d; tagName := "textarea"; classList := [];
                textContent := ""; value := text |}).
  assert (Hta : has_class "toast" ta = false) by reflexivity.
  assert (Hid : is_node (nextId d) ta = true) by apply Nat.eqb_refl.
  assert (B : forall m b,
    body b = (body d ++ [ta])%list -> nextId b = S (nextId d) ->
    exists d', removeChild (nextId d) (showToast m b) = Fulfilled d'
      /\ body d' = (remove_first (has_class "toast") (body d)
                    ++ [{| nid := S (nextId d); tagName := "div";
                           classList := ["toast"]; textContent := m;
                           value := "" |}])%list).
  { intros m b Hb Hi. unfold removeChild, showToast. simpl.
    rewrite Hb, Hi. rewrite (remove_first_snoc_other _ _ _ Hta).
    set (L := remove_first (has_class "toast") (body d)).
    assert (HL : existsb (is_node (nextId d)) L = false)
      by (apply remove_first_keeps_absent; exact Hn).
    rewrite existsb_snoc, existsb_snoc, Hid, orb_true_r. simpl.
    eexists. split; [reflexivity|]. simpl.
    rewrite remove_first_snoc_found
      by (rewrite existsb_snoc, Hid; apply orb_true_r).
    now rewrite (remove_first_absent _ _ _ HL Hid). }
  unfold fallback. destruct e as [[|]|]; apply B; reflexivity.
Qed.

(** X19. For every citation text the copy settles as fulfilled, never as
    rejected, and leaves a toast as the last child of the body, waiting for
    the timer that makes it visible. When the clipboard write is fulfilled
    the toast is the confirmation. When it is rejected, or the clipboard is
    not there, the text area is created and selected, and the toast is the
    confirmation if [execCommand] returns and the failure message if it
    throws. *)
Theorem copyToClipboard_always_notifies :
  forall text w e d,
    exists d',
      copyToClipboard text w e d = Fulfilled d'
      /\ (notifies confirmation d' \/ notifies failure d')
      /\ (w = WriteFulfilled ->
          notifies confirmation d' /\ clipboard d' = Some text)
      /\ (w <> WriteFulfilled ->
          selection d' = Some (nextId d)
          /\ match e with
             | ExecReturns _ => notifies confirmation d'
             | ExecThrows => notifies failure d'
             end).
Proof.
  intros text w e d.
  set (ta := {| nid := nextId d; tagName := "textarea"; classList := [];
                textContent := ""; value := text |}).
  assert (F : forall m b,
    body b = (body d ++ [ta])%list -> nextId b = S (nextId d) ->
    selection b = Some (nextId d) ->
    exists d', removeChild (nextId d) (showToast m b) = Fulfilled d'
               /\ notifies m d' /\ selection d' = Some (nextId d)).
  { intros m b Hb Hi Hs. unfold removeChild, showToast. simpl.
    rewrite Hb, Hi.
    rewrite (remove_first_snoc_other (has_class "toast") (body d) ta eq_refl).
    assert (Hin : existsb (is_node (nextId d))
                    (remove_first (has_class "toast") (body d) ++ [ta])%list = true).
    { rewrite existsb_snoc. unfold is_node at 2. simpl.
      rewrite Nat.eqb_refl. apply orb_true_r. }
    rewrite existsb_snoc, Hin. simpl.
    eexists. split; [reflexivity|]. split; [|exact Hs].
    unfold notifies. simpl.
    rewrite (remove_first_snoc_found _ _ _ Hin).
    eexists. eexists. split; [reflexivity|]. simpl.
    repeat split. apply in_or_app. right. left. reflexivity. }
  destruct w.
  - exists (showToast confirmation (set_clipboard text d)).
    split; [reflexivity|]. split; [left; apply showToast_notifies|].
    split; [intros _; split; [apply showToast_notifies|reflexivity]|].
    intro H. congruence.
  - unfold copyToClipboard, fallback.
    destruct e as [[|]|];
      (edestruct F as [d' [E [Hn Hs]]];
       [| | |exists d'; split; [exact E|];
             split; [first [left; exact Hn | right; exact Hn]|];
             split; [discriminate|]; intros _; split; [exact Hs|exact Hn]]);
      reflexivity.
  - unfold copyToClipboard, fallback.
    destruct e as [[|]|];
      (edestruct F as [d' [E [Hn Hs]]];
       [| | |exists d'; split; [exact E|];
             split; [first [left; exact Hn | right; exact Hn]|];
             split; [discriminate|]; intros _; split; [exact Hs|exact Hn]]);
      reflexivity.
Qed.

(** C6. The clipboard write is rejected and [execCommand] returns false:
    the fallback copy has failed too and the clipboard holds what it held,
    yet the copy ends in the confirmation, not in the failure message. The
    code reaches the failure message only when [execCommand] throws. *)
Theorem failed_fallback_still_confirms :
  forall text d,
    exists d',
      copyToClipboard text WriteRejected (ExecReturns false) d = Fulfilled d'
      /\ clipboard d' = clipboard d
      /\ notifies confirmation d'
      /\ ~ notifies failure d'.
Proof.
  intros text d.
  cbn [copyToClipboard]. unfold fallback, removeChild, showToast, append_textArea.
  cbn [body nextId timers].
  set (ta := {| nid := nextId d; tagName := "textarea"; classList := [];
                textContent := ""; value := text |}).
  assert (Hin : existsb (is_node (nextId d))
                  (remove_first (has_class "toast") (body d) ++ [ta])%list
                = true).
  { rewrite existsb_snoc. unfold is_node at 2. simpl.
    rewrite Nat.eqb_refl. apply orb_true_r. }
  rewrite (remove_first_snoc_other (has_class "toast") (body d) ta eq_refl).
  rewrite existsb_snoc, Hin. cbn [orb].
  eexists. split; [reflexivity|]. split; [reflexivity|].
  unfold notifies. cbn [body timers].
  rewrite (remove_first_snoc_found _ _ _ Hin).
  split.
  - eexists. eexists. split; [reflexivity|]. simpl.
    repeat split. apply in_or_app. right. left. reflexivity.
  - intros [l [t [B [_ [M _]]]]].
    apply app_inj_tail in B as [_ <-]. cbn [textContent] in M.
    unfold confirmation, failure in M. discriminate M.
Qed.

(** C10. On the fallback path (the clipboard write did not succeed) the
    copy leaves in the body exactly what the direct path leaves: the
    children it found, less the toast [showToast] takes away, plus the new
    toast. The text area it appended is gone, whether [execCommand] returned
    or threw. *)
Theorem fallback_removes_textArea :
  forall text w e d,
    fresh_ids d ->
    w <> WriteFulfilled ->
    exists d' t,
      copyToClipboard text w e d = Fulfilled d'
      /\ body d' = (remove_first (has_class "toast") (body d) ++ [t])%list
      /\ tagName t = "div" /\ has_class "toast" t = true
      /\ existsb (is_node (nextId d)) (body d') = false.
Proof.
  intros text w e d Hf Hw.
  destruct (fallback_body text e d Hf) as [d' [E B]].
  exists d'. eexists. split.
  { destruct w; [congruence| |]; exact E. }
  split; [exact B|]. split; [reflexivity|]. split; [reflexivity|].
  rewrite B, existsb_snoc.
  rewrite remove_first_keeps_absent by (apply fresh_ids_not_found; exact Hf).
  unfold is_node. cbn [nid orb]. apply Nat.eqb_neq. lia.
Qed.

Lemma fallback_removes_textArea_witness :
  let page_body := [{| nid := 0; tagName := "main"; classList := [];
                       textContent := "ResPredAI"; value := "" |}] in
  let d := {| body := page_body; nextId := 1; timers := [];
              selection := None; clipboard := None |} in
  exists d' t,
    copyToClipboard "@article{x}" WriteRejected ExecThrows d = Fulfilled d'
    /\ body d' = (remove_first (has_class "toast") (body d) ++ [t])%list
    /\ tagName t = "div" /\ has_class "toast" t = true
    /\ existsb (is_node (nextId d)) (body d') = false.
Proof.
  intros page_body d.
  apply (fallback_removes_textArea "@article{x}" WriteRejected ExecThrows d).
  - repeat constructor.
  - discriminate.
Defined.

Lemma update_node_absent id f l :
  existsb (is_node id) l = false -> update_node id f l = l.
Proof.
  unfold update_node. induction l as [|n l IH]; simpl; [reflexivity|].
  intro H. apply orb_false_iff in H as [Hn Hl].
  now rewrite Hn, IH.
Qed.

Lemma update_node_last id f l x :
  existsb (is_node id) l = false -> nid x = id ->
  update_node id f (l ++ [x])%list = (l ++ [f x])%list.
Proof.
  intros Hl Hx. unfold update_node. rewrite map_app.
  fold (update_node id f l). rewrite (update_node_absent id f l Hl).
  simpl. unfold is_node. now rewrite Hx, Nat.eqb_refl.
Qed.

Lemma remove_first_none (p : node -> bool) l :
  existsb p l = false -> remove_first p l = l.
Proof.
  induction l as [|n l IH]; simpl; [reflexivity|].
  intro H. apply orb_false_iff in H as [Hn Hl]. now rewrite Hn, IH.
Qed.

(** X6. The life of a toast: [showToast] schedules two timers; when the
    first has run the toast carries the class show, the second takes the
    class away and schedules a third, and after the third the toast is gone
    and the body holds what it held before, less the toast that
    [showToast] had replaced. *)
Theorem toast_comes_and_goes :
  forall m d,
    fresh_ids d ->
    let id := nextId d in
    let toast c := {| nid := id; tagName := "div"; classList := c;
                      textContent := m; value := "" |} in
    let rest := remove_first (has_class "toast") (body d) in
    let d1 := showToast m d in
    let d2 := fire (AddShow id) d1 in
    let d3 := fire (Hide id) d2 in
    let d4 := fire (RemoveToast id) d3 in
    timers d1 = (timers d ++ [(10, AddShow id); (3000, Hide id)])%list
    /\ body d1 = (rest ++ [toast ["toast"]])%list
    /\ body d2 = (rest ++ [toast ["toast"; "show"]])%list
    /\ body d3 = (rest ++ [toast ["toast"]])%list
    /\ timers d3 = (timers d1 ++ [(300, RemoveToast id)])%list
    /\ body d4 = rest.
Proof.
  intros m d Hf id toast rest d1 d2 d3 d4.
  assert (Hr : existsb (is_node id) rest = false).
  { apply remove_first_keeps_absent. apply fresh_ids_not_found. exact Hf. }
  assert (B1 : body d1 = (rest ++ [toast ["toast"]])%list) by reflexivity.
  assert (B2 : body d2 = (rest ++ [toast ["toast"; "show"]])%list).
  { unfold d2. cbn [fire body]. rewrite B1.
    now rewrite (update_node_last id (add_class "show") rest
                   (toast ["toast"]) Hr eq_refl). }
  assert (B3 : body d3 = (rest ++ [toast ["toast"]])%list).
  { unfold d3. cbn [fire body]. rewrite B2.
    now rewrite (update_node_last id (remove_class "show") rest
                   (toast ["toast"; "show"]) Hr eq_refl). }
  repeat split; try assumption.
  unfold d4. cbn [fire body]. rewrite B3.
  apply remove_first_absent; [exact Hr|]. apply Nat.eqb_refl.
Qed.

Lemma toast_comes_and_goes_witness :
  let d := {| body := [{| nid := 0; tagName := "main"; classList := [];
                          textContent := "ResPredAI"; value := "" |}];
              nextId := 1; timers := []; selection := None;
              clipboard := None |} in
  let m := confirmation in
  let id := nextId d in
  let toast c := {| nid := id; tagName := "div"; classList := c;
                    textContent := m; value := "" |} in
  let rest := remove_first (has_class "toast") (body d) in
  let d1 := showToast m d in
  let d2 := fire (AddShow id) d1 in
  let d3 := fire (Hide id) d2 in
  let d4 := fire (RemoveToast id) d3 in
  timers d1 = (timers d ++ [(10, AddShow id); (3000, Hide id)])%list
  /\ body d1 = (rest ++ [toast ["toast"]])%list
  /\ body d2 = (rest ++ [toast ["toast"; "show"]])%list
  /\ body d3 = (rest ++ [toast ["toast"]])%list
  /\ timers d3 = (timers d1 ++ [(300, RemoveToast id)])%list
  /\ body d4 = rest.
Proof.
  intro d. apply (toast_comes_and_goes confirmation d). repeat constructor.
Defined.

Lemma filter_remove_first_le (p q : node -> bool) l :
  length (filter q (remove_first p l)) <= length (filter q l).
Proof.
  induction l as [|n l IH]; simpl; [lia|].
  destruct (p n); simpl; destruct (q n); simpl; lia.
Qed.

Lemma filter_remove_first_same (p : node -> bool) l :
  length (filter p (remove_first p l)) = pred (length (filter p l)).
Proof.
  induction l as [|n l IH]; simpl; [reflexivity|].
  destruct (p n) eqn:E; simpl; [reflexivity|]. now rewrite E.
Qed.

Lemma has_class_toast_add n :
  has_class "toast" (add_class "show" n) = has_class "toast" n.
Proof.
  unfold add_class, has_class. cbn [classList].
  destruct (existsb (String.eqb "show") (classList n)); [reflexivity|].
  rewrite existsb_app. cbn [existsb].
  replace (String.eqb "toast" "show") with false by reflexivity.
  now rewrite !orb_false_r.
Qed.

Lemma has_class_toast_remove n :
  has_class "toast" (remove_class "show" n) = has_class "toast" n.
Proof.
  unfold remove_class, has_class. cbn [classList].
  induction (classList n) as [|x l IH]; [reflexivity|].
  cbn [filter existsb].
  destruct (String.eqb_spec "show" x) as [<-|Hx]; cbn [negb existsb].
  - rewrite IH. reflexivity.
  - now rewrite IH.
Qed.

Lemma filter_update_node (q f : node -> node) id l :
  (forall n, has_class "toast" (f n) = has_class "toast" n) ->
  length (filter (has_class "toast") (update_node id f l))
  = length (filter (has_class "toast") l).
Proof.
  intro H. unfold update_node. induction l as [|n l IH]; simpl; [reflexivity|].
  destruct (is_node id n); rewrite ?H; destruct (has_class "toast" n);
    simpl; now rewrite IH.
Qed.

Lemma toasts_showToast m d : toasts d <= 1 -> toasts (showToast m d) = 1.
Proof.
  unfold toasts, showToast. simpl. intro H.
  rewrite filter_app, length_app, filter_remove_first_same. simpl. lia.
Qed.

Lemma toasts_fire t d : toasts (fire t d) <= toasts d.
Proof.
  unfold toasts. destruct t as [id|id|id]; simpl.
  - rewrite (filter_update_node (fun n => n)); [lia|apply has_class_toast_add].
  - rewrite (filter_update_node (fun n => n)); [lia|apply has_class_toast_remove].
  - apply filter_remove_first_le.
Qed.

Lemma toasts_copy text w e d :
  toasts d <= 1 -> toasts (after (copyToClipboard text w e d)) <= 1.
Proof.
  intro H.
  assert (G : forall m b, toasts b <= 1 ->
                toasts (after (removeChild (nextId d) (showToast m b))) <= 1).
  { intros m b Hb. pose proof (toasts_showToast m b Hb) as E.
    unfold removeChild.
    destruct (existsb _ _); cbn [after]; [|lia].
    unfold toasts in *. cbn [body].
    pose proof (filter_remove_first_le (is_node (nextId d))
                  (has_class "toast") (body (showToast m b))). lia. }
  assert (A : forall b, body b = body d -> toasts (append_textArea text b) <= 1).
  { intros b Hb. unfold toasts, append_textArea. cbn [body].
    rewrite Hb, filter_app, length_app. simpl. unfold toasts in H. lia. }
  destruct w; cbn [copyToClipboard].
  - cbn [after]. rewrite toasts_showToast; [lia|exact H].
  - unfold fallback. destruct e as [[|]|]; apply G; apply (A d); reflexivity.
  - unfold fallback. destruct e as [[|]|]; apply G; apply (A d); reflexivity.
Qed.

(** X7. Never two toasts: in a document with at most one element of class
    toast, whatever cite buttons are clicked (with or without a citation,
    however the copy goes) and whatever timer callbacks run in between, at
    most one toast is in the document afterwards. *)
Theorem at_most_one_toast :
  forall acts d,
    toasts d <= 1 ->
    toasts (run_actions acts d) <= 1.
Proof.
  unfold run_actions. induction acts as [|a acts IH]; intros d H; simpl.
  - exact H.
  - apply IH. destruct a as [[c|] w e|t]; simpl.
    + destruct (c =? ""); [exact H|]. now apply toasts_copy.
    + exact H.
    + pose proof (toasts_fire t d). lia.
Qed.

Lemma at_most_one_toast_witness :
  let d := {| body := []; nextId := 0; timers := []; selection := None;
              clipboard := None |} in
  toasts (run_actions [Click (Some "@article{x}") WriteRejected ExecThrows;
                       Timer (AddShow 1);
                       Click (Some "@article{x}") WriteFulfilled ExecThrows;
                       Timer (Hide 1)] d) <= 1.
Proof.
  intro d.
  apply (at_most_one_toast
           [Click (Some "@article{x}") WriteRejected ExecThrows;
            Timer (AddShow 1);
            Click (Some "@article{x}") WriteFulfilled ExecThrows;
            Timer (Hide 1)] d).
  unfold d, toasts. simpl. lia.
Defined.

Lemma toasts_none_after_remove l :
  length (filter (has_class "toast") l) <= 1 ->
  existsb (has_class "toast") (remove_first (has_class "toast") l) = false.
Proof.
  induction l as [|n l IH]; simpl; [reflexivity|].
  destruct (has_class "toast" n) eqn:E; simpl.
  - intro H. destruct (existsb (has_class "toast") l) eqn:X; [|reflexivity].
    exfalso. clear IH. induction l as [|x l IH]; simpl in *; [discriminate|].
    destruct (has_class "toast" x); simpl in *; [lia|]. now apply IH.
  - intro H. rewrite E. now apply IH.
Qed.

(** X8. The timers of a toast that has been replaced do nothing to its
    successor: after two notifications in a row, running the three timer
    callbacks of the first leaves the body as it is, with the second toast
    as its last child. *)
Theorem timers_of_replaced_toast_are_harmless :
  forall m1 m2 d,
    fresh_ids d ->
    toasts d <= 1 ->
    let id1 := nextId d in
    let d2 := showToast m2 (showToast m1 d) in
    body d2 = (remove_first (has_class "toast") (body d)
               ++ [{| nid := S id1; tagName := "div"; classList := ["toast"];
                      textContent := m2; value := "" |}])%list
    /\ body (fire (AddShow id1) d2) = body d2
    /\ body (fire (Hide id1) d2) = body d2
    /\ body (fire (RemoveToast id1) d2) = body d2.
Proof.
  intros m1 m2 d Hf Ht id1 d2.
  set (rest := remove_first (has_class "toast") (body d)).
  assert (Hr : existsb (is_node id1) rest = false).
  { apply remove_first_keeps_absent. apply fresh_ids_not_found. exact Hf. }
  assert (Hn : existsb (has_class "toast") rest = false).
  { apply toasts_none_after_remove. exact Ht. }
  assert (B : body d2
              = (rest ++ [{| nid := S id1; tagName := "div";
                             classList := ["toast"]; textContent := m2;
                             value := "" |}])%list).
  { unfold d2, showToast. cbn [body nextId]. fold rest. fold id1.
    set (t1 := {| nid := id1; tagName := "div"; classList := ["toast"];
                  textContent := m1; value := "" |}).
    now rewrite (remove_first_absent (has_class "toast") rest t1 Hn eq_refl). }
  assert (A : existsb (is_node id1) (body d2) = false).
  { rewrite B, existsb_snoc, Hr. unfold is_node. cbn [nid orb].
    apply Nat.eqb_neq. lia. }
  split; [exact B|]. cbn [fire body].
  rewrite !(update_node_absent id1 _ _ A), (remove_first_none _ _ A).
  repeat split.
Qed.

Lemma timers_of_replaced_toast_are_harmless_witness :
  let d := {| body := [{| nid := 0; tagName := "main"; classList := [];
                          textContent := "ResPredAI"; value := "" |}];
              nextId := 1; timers := []; selection := None;
              clipboard := None |} in
  let id1 := nextId d in
  let d2 := showToast failure (showToast confirmation d) in
  body d2 = (remove_first (has_class "toast") (body d)
             ++ [{| nid := S id1; tagName := "div"; classList := ["toast"];
                    textContent := failure; value := "" |}])%list
  /\ body (fire (AddShow id1) d2) = body d2
  /\ body (fire (Hide id1) d2) = body d2
  /\ body (fire (RemoveToast id1) d2) = body d2.
Proof.
  intro d.
  apply (timers_of_replaced_toast_are_harmless confirmation failure d).
  - repeat constructor.
  - unfold d, toasts. simpl. lia.
Defined.

(** X9. What reaches the clipboard: after the copy the clipboard holds the
    citation when the write was fulfilled or [execCommand] returned true;
    otherwise it holds what it held. When the write fails and
    [execCommand] returns false nothing has been copied and the toast is
    the confirmation all the same: the code does not look at what
    [execCommand] returns. *)
Theorem clipboard_after_copy :
  forall text w e d,
    clipboard (after (copyToClipboard text w e d))
    = match w, e with
      | WriteFulfilled, _ => Some text
      | _, ExecReturns true => Some text
      | _, _ => clipboard d
      end
    /\ (exists d', copyToClipboard text WriteRejected (ExecReturns false) d
                   = Fulfilled d'
                   /\ clipboard d' = clipboard d
                   /\ notifies confirmation d').
Proof.
  intros text w e d. split.
  - destruct w; cbn [copyToClipboard]; [reflexivity| |];
      unfold fallback, removeChild;
      destruct e as [[|]|]; destruct (existsb _ _); reflexivity.
  - cbn [copyToClipboard]. unfold fallback, removeChild, showToast, append_textArea.
    cbn [body nextId timers].
    set (ta := {| nid := nextId d; tagName := "textarea"; classList := [];
                  textContent := ""; value := text |}).
    assert (Hin : existsb (is_node (nextId d))
                    (remove_first (has_class "toast") (body d) ++ [ta])%list
                  = true).
    { rewrite existsb_snoc. unfold is_node at 2. simpl.
      rewrite Nat.eqb_refl. apply orb_true_r. }
    rewrite (remove_first_snoc_other (has_class "toast") (body d) ta eq_refl).
    rewrite existsb_snoc, Hin. cbn [orb].
    eexists. split; [reflexivity|]. split; [reflexivity|].
    unfold notifies. cbn [body timers].
    rewrite (remove_first_snoc_found _ _ _ Hin).
    eexists. eexists. split; [reflexivity|]. simpl.
    repeat split. apply in_or_app. right. left. reflexivity.
Qed.

(* ================================================================== *)
(** ** The header scroll effect *)

Import HeaderScroll.

Lemma updateHeader_frame s :
  frameRequests (updateHeader s) = frameRequests s
  /\ frames (updateHeader s) = frames s.
Proof.
  unfold updateHeader. destruct (header s); split; reflexivity.
Qed.

Lemma iter_updateHeader_frame n s :
  frameRequests (Nat.iter n updateHeader s) = frameRequests s
  /\ frames (Nat.iter n updateHeader s) = frames s.
Proof.
  induction n as [|n [IH1 IH2]]; simpl; [split; reflexivity|].
  destruct (updateHeader_frame (Nat.iter n updateHeader s)) as [E1 E2].
  rewrite E1, E2. split; assumption.
Qed.

Lemma step_coalesced e s : coalesced s -> coalesced (step e s).
Proof.
  intros [H1 [H2 H3]]. destruct e as [y|]; unfold coalesced.
  - simpl. destruct (ticking s) eqn:T; repeat split; auto.
    destruct (frameRequests s) as [|[|k]]; lia.
  - unfold step. cbv zeta. cbn [frameRequests ticking frames].
    match goal with
    | |- context [Nat.iter ?n updateHeader ?s0] =>
        destruct (iter_updateHeader_frame n s0) as [E1 E2]
    end.
    rewrite E1, E2. cbn [frameRequests frames].
    split; [lia|]. split; [discriminate|].
    apply Forall_app. split; [exact H3|]. constructor; [exact H1|constructor].
Qed.

Lemma run_coalesced evs s : coalesced s -> coalesced (run evs s).
Proof.
  unfold run. revert s. induction evs as [|e evs IH]; simpl; intros s H.
  - exact H.
  - apply IH. apply step_coalesced. exact H.
Qed.

(** C8. After any sequence of scroll events and animation frames since
    [initHeaderScroll], no frame has run [updateHeader] more than once and
    at most one call is waiting. While the flag is set a further scroll
    event requests no frame. The flag, once set, is cleared by no scroll
    event: only a frame in which the waiting update runs clears it. *)
Theorem header_update_once_per_frame :
  forall h y evs,
    let s := run evs (init h y) in
    Forall (fun n => n <= 1) (frames s)
    /\ frameRequests s <= 1
    /\ (forall y', ticking s = true ->
                   frameRequests (step (Scroll y') s) = frameRequests s)
    /\ (forall y', ticking s = false ->
                   frameRequests (step (Scroll y') s) = 1
                   /\ ticking (step (Scroll y') s) = true)
    /\ (forall e, ticking s = true -> ticking (step e s) = false ->
                  e = Frame /\ frameRequests s = 1
                  /\ frames (step e s) = (frames s ++ [1])%list).
Proof.
  intros h y evs s.
  assert (C : coalesced s).
  { apply run_coalesced. unfold coalesced, init. simpl.
    split; [lia|]. split; [discriminate|constructor]. }
  destruct C as [H1 [H2 H3]].
  split; [exact H3|]. split; [exact H1|]. split; [|split].
  - intros y' T. simpl. now rewrite T.
  - intros y' T. simpl. rewrite T. split; [|reflexivity].
    destruct (frameRequests s) as [|[|k]] eqn:E; try lia.
    specialize (H2 eq_refl). congruence.
  - intros e T T'. destruct e as [y'|]; [simpl in T'; discriminate|].
    split; [reflexivity|].
    destruct (frameRequests s) as [|[|k]] eqn:E; try lia.
    + exfalso. unfold step in T'. rewrite E in T'. simpl in T'. congruence.
    + split; [reflexivity|].
      unfold step. rewrite E. cbv zeta. cbn [frames].
      match goal with
      | |- context [Nat.iter ?n updateHeader ?s0] =>
          destruct (iter_updateHeader_frame n s0) as [_ E2]
      end.
      rewrite E2. reflexivity.
Qed.

Lemma classList_add_has c l :
  existsb (String.eqb c) (classList_add c l) = true.
Proof.
  unfold classList_add. destruct (existsb (String.eqb c) l) eqn:E; [exact E|].
  rewrite existsb_app. cbn [existsb]. rewrite String.eqb_refl.
  apply orb_true_iff. right. reflexivity.
Qed.

Lemma classList_remove_has c l :
  existsb (String.eqb c) (classList_remove c l) = false.
Proof.
  unfold classList_remove. induction l as [|x l IH]; [reflexivity|].
  cbn [filter]. destruct (String.eqb c x) eqn:E; cbn [negb]; [exact IH|].
  cbn [existsb]. now rewrite E, IH.
Qed.

Lemma classList_add_others c l :
  filter (fun x => negb (String.eqb c x)) (classList_add c l)
  = filter (fun x => negb (String.eqb c x)) l.
Proof.
  unfold classList_add. destruct (existsb (String.eqb c) l); [reflexivity|].
  rewrite filter_app. cbn [filter]. rewrite String.eqb_refl. cbn [negb].
  apply app_nil_r.
Qed.

Lemma classList_remove_others c l :
  filter (fun x => negb (String.eqb c x)) (classList_remove c l)
  = filter (fun x => negb (String.eqb c x)) l.
Proof.
  unfold classList_remove. induction l as [|x l IH]; [reflexivity|].
  cbn [filter]. destruct (negb (String.eqb c x)) eqn:E; [|exact IH].
  cbn [filter]. now rewrite E, IH.
Qed.

Lemma step_frame_idle s :
  frameRequests s = 0 ->
  step Frame s
  = {| header := header s; scrollY := scrollY s; lastScrollY := lastScrollY s;
       ticking := ticking s; frameRequests := 0;
       frames := (frames s ++ [0])%list |}.
Proof. intro F. unfold step. rewrite F. reflexivity. Qed.

Lemma step_frame_update s l :
  frameRequests s = 1 ->
  header s = Some l ->
  step Frame s
  = {| header := Some (if (scrollY s >? 100)%Z then classList_add "scrolled" l
                       else classList_remove "scrolled" l);
       scrollY := scrollY s; lastScrollY := lastScrollY s;
       ticking := false; frameRequests := 0;
       frames := (frames s ++ [1])%list |}.
Proof.
  intros F Hl. unfold step. rewrite F. cbv zeta.
  change (Nat.iter 1 updateHeader ?x) with (updateHeader x).
  unfold updateHeader. cbn [header]. rewrite Hl. reflexivity.
Qed.

Lemma step_responsive cl e s : responsive cl s -> responsive cl (step e s).
Proof.
  intros [[l Hl] [Ho Ht]]. destruct e as [y|].
  - unfold responsive, other_classes in *.
    cbn [step onScroll header ticking frameRequests].
    split; [exists l; exact Hl|]. split; [exact Ho|]. right.
    destruct Ht as [[T F]|[T F]]; rewrite T, F; split; reflexivity.
  - unfold other_classes in Ho. rewrite Hl in Ho. cbn [option_map] in Ho.
    destruct Ht as [[T F]|[T F]].
    + rewrite (step_frame_idle s F). unfold responsive, other_classes.
      cbn [header ticking frameRequests]. rewrite Hl.
      split; [eexists; reflexivity|]. split; [exact Ho|].
      left. split; [exact T|reflexivity].
    + rewrite (step_frame_update s l F Hl). unfold responsive, other_classes.
      cbn [header ticking frameRequests option_map].
      split; [eexists; reflexivity|]. split.
      * rewrite <- Ho. f_equal.
        destruct (scrollY s >? 100)%Z;
          [apply classList_add_others|apply classList_remove_others].
      * left. split; reflexivity.
Qed.

Lemma run_responsive cl evs s : responsive cl s -> responsive cl (run evs s).
Proof.
  unfold run. revert s. induction evs as [|e evs IH]; simpl; intros s H.
  - exact H.
  - apply IH. now apply step_responsive.
Qed.

Lemma run_app evs evs' s : run (evs ++ evs') s = run evs' (run evs s).
Proof. unfold run. apply fold_left_app. Qed.

(** X10. With a header in the page no scroll is lost: whatever happened
    before, after a scroll to [y] and the next animation frame the header
    carries the class scrolled exactly when [y] is above 100, its other
    classes are the ones it had at the start, and the flag is clear again
    for the next scroll. *)
Theorem scroll_shows_at_next_frame :
  forall cl y0 evs y,
    let s := run (evs ++ [Scroll y; Frame]) (init (Some cl) y0) in
    scrolled s = (y >? 100)%Z
    /\ other_classes s
       = Some (filter (fun x => negb (String.eqb "scrolled" x)) cl)
    /\ ticking s = false
    /\ frameRequests s = 0.
Proof.
  intros cl y0 evs y s. subst s. rewrite run_app.
  assert (R : responsive cl (run evs (init (Some cl) y0))).
  { apply run_responsive. unfold responsive, other_classes, init.
    cbn [header ticking frameRequests option_map].
    split; [eexists; reflexivity|]. split; [reflexivity|].
    left. split; reflexivity. }
  set (s := run evs (init (Some cl) y0)) in *.
  destruct R as [[l Hl] [Ho Ht]].
  assert (F : frameRequests (step (Scroll y) s) = 1).
  { cbn [step onScroll frameRequests ticking].
    destruct Ht as [[T F]|[T F]]; rewrite T, F; reflexivity. }
  unfold run. cbn [fold_left].
  rewrite (step_frame_update (step (Scroll y) s) l F Hl).
  unfold scrolled, other_classes.
  cbn [step onScroll header scrollY ticking frameRequests option_map].
  unfold other_classes in Ho. rewrite Hl in Ho. cbn [option_map] in Ho.
  repeat split.
  - destruct (y >? 100)%Z;
      [apply classList_add_has|apply classList_remove_has].
  - rewrite <- Ho. f_equal.
    destruct (y >? 100)%Z;
      [apply classList_add_others|apply classList_remove_others].
Qed.

Lemma iter_updateHeader_missing n s :
  header s = None -> Nat.iter n updateHeader s = s.
Proof.
  intro H. induction n as [|n IH]; simpl; [reflexivity|].
  rewrite IH. unfold updateHeader. now rewrite H.
Qed.

Lemma step_stuck e s : stuck s -> stuck (step e s).
Proof.
  intros [Hh Ht]. unfold stuck. destruct e as [y|].
  - cbn [step onScroll header ticking frameRequests frames].
    split; [exact Hh|]. right. split; [reflexivity|].
    destruct Ht as [[T [F S]]|[T F]]; rewrite T; [rewrite F, S; reflexivity|exact F].
  - unfold step. cbv zeta.
    rewrite iter_updateHeader_missing by exact Hh.
    cbn [header ticking frameRequests frames].
    split; [exact Hh|]. rewrite list_sum_app. cbn [list_sum].
    destruct Ht as [[T [F S]]|[T F]].
    + left. rewrite F, S. split; [exact T|]. split; reflexivity.
    + right. split; [exact T|]. simpl. lia.
Qed.

Lemma run_stuck evs s : stuck s -> stuck (run evs s).
Proof.
  unfold run. revert s. induction evs as [|e evs IH]; simpl; intros s H.
  - exact H.
  - apply IH. now apply step_stuck.
Qed.

Lemma run_stays_ticking evs s :
  header s = None -> ticking s = true -> ticking (run evs s) = true.
Proof.
  unfold run. revert s. induction evs as [|e evs IH]; simpl; intros s Hh T.
  - exact T.
  - assert (Hs : header (step e s) = None /\ ticking (step e s) = true).
    { destruct e as [y|]; [split; [exact Hh|reflexivity]|].
      unfold step. cbv zeta.
      rewrite iter_updateHeader_missing by exact Hh.
      split; [exact Hh|exact T]. }
    apply IH; apply Hs.
Qed.

(** X11. With no header in the page the effect dies at the first scroll:
    over any sequence of scroll events and frames [updateHeader] is run at
    most once in all (it throws before it clears the flag), and once a
    scroll has happened the flag stays set, so no later scroll requests a
    frame. *)
Theorem missing_header_one_update_ever :
  forall y0 evs,
    let s := run evs (init None y0) in
    list_sum (frames s) <= 1
    /\ header s = None
    /\ ((exists y, In (Scroll y) evs) ->
        ticking s = true
        /\ forall y', frameRequests (step (Scroll y') s) = frameRequests s).
Proof.
  intros y0 evs s.
  assert (S0 : stuck (init None y0)).
  { unfold stuck, init. cbn. split; [reflexivity|]. left. repeat split. }
  pose proof (run_stuck evs _ S0) as [Hh Ht]. fold s in Hh, Ht.
  split; [destruct Ht as [[_ [_ S]]|[_ S]]; lia|]. split; [exact Hh|].
  intros [y Hy].
  assert (T : ticking s = true).
  { subst s. clear Hh Ht. revert S0. generalize (init None y0).
    induction evs as [|e evs IH]; intros s0 S0; [contradiction|].
    unfold run. cbn [fold_left]. fold (run evs (step e s0)).
    destruct Hy as [->|Hy].
    - apply run_stays_ticking; [|reflexivity]. apply S0.
    - apply IH; [exact Hy|]. now apply step_stuck. }
  split; [exact T|]. intro y'. cbn [step onScroll frameRequests ticking].
  now rewrite T.
Qed.

(* ================================================================== *)
(** ** Cards read back from their markup *)

Import Markup.
Import Card.

Lemma append_nil_r (s : string) : s ++ "" = s.
Proof. induction s as [|c s IH]; simpl; [reflexivity|now rewrite IH]. Qed.

Lemma append_assoc (a b c : string) : (a ++ b) ++ c = a ++ (b ++ c).
Proof. induction a as [|x a IH]; simpl; [reflexivity|now rewrite IH]. Qed.

Lemma all_chars_app P a b :
  all_chars P (a ++ b) = all_chars P a && all_chars P b.
Proof.
  induction a as [|c a IH]; simpl; [reflexivity|].
  now rewrite IH, andb_assoc.
Qed.

Lemma all_chars_weaken (P Q : ascii -> bool) s :
  (forall c, P c = true -> Q c = true) ->
  all_chars P s = true -> all_chars Q s = true.
Proof.
  intro H. induction s as [|c s IH]; simpl; [reflexivity|].
  intro A. apply andb_true_iff in A as [A1 A2].
  now rewrite (H _ A1), IH.
Qed.

Lemma chars_app a b : chars (a ++ b) = (chars a ++ chars b)%list.
Proof.
  unfold chars. induction a as [|c a IH]; simpl; [reflexivity|].
  now rewrite IH.
Qed.

(** the tokenizer over two pieces is the tokenizer over the first, then,
    from the state reached, over the second *)
Lemma feed_app st a b :
  feed st (a ++ b)
  = match feed st a with
    | Some (out, st') =>
        match feed st' b with
        | Some (out', st'') => Some ((out ++ out')%list, st'')
        | None => None
        end
    | None => None
    end.
Proof.
  revert st. induction a as [|c a IH]; intro st; simpl.
  - destruct (feed st b) as [[o s]|]; reflexivity.
  - destruct (step st c) as [[o s]|]; [|reflexivity].
    rewrite IH. destruct (feed s a) as [[o1 s1]|]; [|reflexivity].
    destruct (feed s1 b) as [[o2 s2]|]; [|reflexivity].
    now rewrite app_assoc.
Qed.

(** an escaped character is read back as text and leaves the data state
    in the data state *)
Lemma feed_escape_char c cr :
  exists txt cr', feed (Data cr) (Html.escape_char c) = Some (chars txt, Data cr').
Proof.
  unfold Html.escape_char.
  destruct (c =? "&")%char eqn:E1.
  { exists "&", false. destruct cr; reflexivity. }
  destruct (c =? "<")%char eqn:E2.
  { exists "<", false. destruct cr; reflexivity. }
  destruct (c =? ">")%char eqn:E3.
  { exists ">", false. destruct cr; reflexivity. }
  destruct (c =? Html.nbsp)%char eqn:E4.
  { exists (String Html.nbsp ""), false. destruct cr; reflexivity. }
  simpl. rewrite E1, E2.
  destruct ((c =? LF)%char && cr).
  { exists "", false. reflexivity. }
  destruct (c =? NUL)%char.
  { exists "", false. reflexivity. }
  destruct (c =? CR)%char.
  { exists (String LF ""), true. reflexivity. }
  exists (String c ""), false. reflexivity.
Qed.

(** escaped text put into markup is read back as text only: whatever the
    text, no tag comes out of it *)
Lemma feed_escape_text s cr :
  exists txt cr', feed (Data cr) (Html.escape_text s) = Some (chars txt, Data cr').
Proof.
  revert cr. induction s as [|c s IH]; intro cr; simpl.
  - exists "", cr. reflexivity.
  - destruct (feed_escape_char c cr) as [t1 [cr1 E1]].
    destruct (IH cr1) as [t2 [cr2 E2]].
    exists (t1 ++ t2), cr2. rewrite feed_app, E1, E2, chars_app. reflexivity.
Qed.

Lemma feed_escape_char_plain c :
  text_plain c = true ->
  feed (Data false) (Html.escape_char c) = Some (chars (String c ""), Data false).
Proof.
  unfold text_plain, Html.escape_char. intro H.
  apply andb_true_iff in H as [H1 H2].
  apply negb_true_iff in H1, H2.
  destruct (c =? "&")%char eqn:E1.
  { apply Ascii.eqb_eq in E1. subst c. reflexivity. }
  destruct (c =? "<")%char eqn:E2.
  { apply Ascii.eqb_eq in E2. subst c. reflexivity. }
  destruct (c =? ">")%char eqn:E3.
  { apply Ascii.eqb_eq in E3. subst c. reflexivity. }
  destruct (c =? Html.nbsp)%char eqn:E4.
  { apply Ascii.eqb_eq in E4. subst c. reflexivity. }
  simpl. rewrite E1, E2, H1, H2, andb_false_r. reflexivity.
Qed.

(** the round trip of [escapeHtml]: text without U+0000 and carriage
    return, escaped and parsed, is the same text *)
Lemma feed_escape_text_plain s :
  all_chars text_plain s = true ->
  feed (Data false) (Html.escape_text s) = Some (chars s, Data false).
Proof.
  induction s as [|c s IH]; simpl; [reflexivity|].
  intro H. apply andb_true_iff in H as [Hc Hs].
  rewrite feed_app, (feed_escape_char_plain c Hc), (IH Hs). reflexivity.
Qed.

(** a value free of the closing quote, the ampersand, U+0000 and carriage
    return is taken into the attribute as it is *)
Lemma feed_attr_plain d : forall t n v,
  all_chars attr_plain d = true ->
  feed (AttrValue false dquote t n v) d
  = Some ([], AttrValue false dquote t n (v ++ d)).
Proof.
  induction d as [|c d IH]; intros t n v H; simpl.
  - now rewrite append_nil_r.
  - simpl in H. apply andb_true_iff in H as [Hc Hd].
    unfold attr_plain, text_plain in Hc.
    repeat (apply andb_true_iff in Hc as [Hc ?]).
    repeat match goal with
           | H : negb _ = true |- _ => apply negb_true_iff in H
           end.
    rewrite andb_false_r.
    replace (c =? dquote)%char with false by (symmetry; assumption).
    replace (c =? "&")%char with false by (symmetry; assumption).
    replace (c =? NUL)%char with false by (symmetry; assumption).
    replace (c =? CR)%char with false by (symmetry; assumption).
    unfold goto. rewrite (IH t n (snoc v c) Hd). unfold snoc.
    now rewrite append_assoc.
Qed.

Lemma escapeHtml_shown v : escapeHtml v = Html.escape_text (shown v).
Proof. unfold escapeHtml, shown. destruct (Js.truthy v); reflexivity. Qed.

Lemma elements_app n a b :
  elements n (a ++ b)%list = (elements n a ++ elements n b)%list.
Proof. apply filter_app. Qed.

Lemma elements_chars n s : elements n (chars s) = [].
Proof.
  unfold elements, chars.
  induction (list_ascii_of_string s) as [|c l IH]; simpl; [reflexivity|exact IH].
Qed.

Lemma text_app a b : text (a ++ b)%list = text a ++ text b.
Proof.
  induction a as [|[c|n l f|n] a IH]; simpl; rewrite ?IH; reflexivity.
Qed.

Lemma text_chars s : text (chars s) = s.
Proof.
  unfold chars. induction s as [|c s IH]; simpl; [reflexivity|now rewrite IH].
Qed.

Lemma uint_digits d : all_chars digit_or_minus (NilEmpty.string_of_uint d) = true.
Proof. induction d; simpl; auto. Qed.

Lemma number_to_string_digits z :
  all_chars digit_or_minus (Js.number_to_string z) = true.
Proof.
  unfold Js.number_to_string, NilZero.string_of_int, NilZero.string_of_uint.
  destruct (Z.to_int z) as [d|d]; destruct d; simpl; try reflexivity;
    apply uint_digits.
Qed.

Lemma digit_or_minus_plain c : digit_or_minus c = true -> attr_plain c = true.
Proof.
  destruct c as [[|] [|] [|] [|] [|] [|] [|] [|]]; vm_compute; congruence.
Qed.

Lemma number_to_string_plain z :
  all_chars attr_plain (Js.number_to_string z) = true.
Proof.
  apply (all_chars_weaken digit_or_minus); [apply digit_or_minus_plain|].
  apply number_to_string_digits.
Qed.

(** a literal piece of the template: run the tokenizer over it *)
Ltac feed_lit :=
  match goal with
  | |- context [feed ?st (lit ?s)] =>
      let r := eval vm_compute in (feed st (lit s)) in
      replace (feed st (lit s)) with r by (vm_compute; reflexivity)
  end;
  cbv beta iota.

Lemma feed_card p i T A J Y D :
  reads (escapeHtml (title p)) T ->
  reads (escapeHtml (authors p)) A ->
  reads (escapeHtml (journal p)) J ->
  reads (escapeHtml (year p)) Y ->
  reads (escapeHtml (doi p)) D ->
  all_chars attr_plain (Js.to_string (doi p)) = true ->
  feed (Data false) (createPublicationCard p i)
  = Some (card_tokens (Js.number_to_string (100 + Z.of_nat i * 100)) T A J Y
            (if Js.truthy (doi p)
             then Some ("https://doi.org/" ++ Js.to_string (doi p), D)
             else None),
          Data false).
Proof.
  intros [c1 E1] [c2 E2] [c3 E3] [c4 E4] [c5 E5] Hd.
  unfold createPublicationCard. cbv zeta.
  pose proof (number_to_string_plain (100 + Z.of_nat i * 100)) as Hn.
  revert Hn. generalize (Js.number_to_string (100 + Z.of_nat i * 100)).
  intros delay Hn.
  revert E1 E2 E3 E4 E5.
  generalize (escapeHtml (title p)) (escapeHtml (authors p))
    (escapeHtml (journal p)) (escapeHtml (year p)) (escapeHtml (doi p)).
  intros t a j y d E1 E2 E3 E4 E5.
  destruct (Js.truthy (doi p)).
  - cbn [Js.to_string]. rewrite !append_assoc.
    assert (Hu : all_chars attr_plain ("https://doi.org/" ++ Js.to_string (doi p)) = true).
    { rewrite all_chars_app, Hd. reflexivity. }
    revert Hu. generalize (Js.to_string (doi p)). intros ds Hu.
    rewrite feed_app. feed_lit.
    rewrite feed_app, (feed_attr_plain _ _ _ _ Hn). cbv beta iota.
    rewrite feed_app. feed_lit.
    rewrite feed_app. feed_lit.
    rewrite feed_app, E1. cbv beta iota.
    rewrite feed_app. feed_lit.
    rewrite feed_app. feed_lit.
    rewrite feed_app, E2. cbv beta iota.
    rewrite feed_app. feed_lit.
    rewrite feed_app. feed_lit.
    rewrite feed_app, E3. cbv beta iota.
    rewrite feed_app. feed_lit.
    rewrite feed_app, E4. cbv beta iota.
    rewrite feed_app. feed_lit.
    rewrite feed_app. feed_lit.
    rewrite feed_app. feed_lit.
    rewrite <- append_assoc.
    rewrite feed_app, (feed_attr_plain _ _ _ _ Hu). cbv beta iota.
    rewrite feed_app. feed_lit.
    rewrite feed_app. feed_lit.
    rewrite feed_app. feed_lit.
    rewrite feed_app. feed_lit.
    rewrite feed_app. feed_lit.
    rewrite feed_app. feed_lit.
    rewrite feed_app. feed_lit.
    rewrite feed_app, E5. cbv beta iota.
    rewrite feed_app. feed_lit.
    rewrite feed_app. feed_lit.
    feed_lit.
    unfold card_tokens, link_tokens. simpl. rewrite <- ?app_assoc. reflexivity.
  - rewrite feed_app. feed_lit.
    rewrite feed_app, (feed_attr_plain _ _ _ _ Hn). cbv beta iota.
    rewrite feed_app. feed_lit.
    rewrite feed_app. feed_lit.
    rewrite feed_app, E1. cbv beta iota.
    rewrite feed_app. feed_lit.
    rewrite feed_app. feed_lit.
    rewrite feed_app, E2. cbv beta iota.
    rewrite feed_app. feed_lit.
    rewrite feed_app. feed_lit.
    rewrite feed_app, E3. cbv beta iota.
    rewrite feed_app. feed_lit.
    rewrite feed_app, E4. cbv beta iota.
    rewrite feed_app. feed_lit.
    rewrite feed_app. feed_lit.
    rewrite feed_app. cbn [feed]. cbv beta iota.
    rewrite feed_app. feed_lit.
    feed_lit.
    reflexivity.
Qed.

Lemma reads_escapeHtml v : exists S, reads (escapeHtml v) S.
Proof.
  rewrite escapeHtml_shown.
  destruct (feed_escape_text (shown v) false) as [S [cr E]].
  exists S, cr. exact E.
Qed.

Lemma reads_escapeHtml_plain v :
  all_chars text_plain (shown v) = true -> reads (escapeHtml v) (shown v).
Proof.
  intro H. exists false. rewrite escapeHtml_shown.
  now apply feed_escape_text_plain.
Qed.

Lemma falsy_plain v :
  Js.truthy v = false -> all_chars attr_plain (Js.to_string v) = true.
Proof.
  destruct v as [| |[|]|n|s]; simpl; try reflexivity; try discriminate.
  - destruct (Z.eqb_spec n 0); [subst; reflexivity|discriminate].
  - destruct s; [reflexivity|discriminate].
Qed.

Lemma parse_card p i :
  (Js.truthy (doi p) = true ->
   all_chars attr_plain (Js.to_string (doi p)) = true) ->
  exists T A J Y D,
    parse (createPublicationCard p i)
    = Some (card_tokens (Js.number_to_string (100 + Z.of_nat i * 100)) T A J Y
              (if Js.truthy (doi p)
               then Some ("https://doi.org/" ++ Js.to_string (doi p), D)
               else None)).
Proof.
  intro H.
  assert (Hd : all_chars attr_plain (Js.to_string (doi p)) = true).
  { destruct (Js.truthy (doi p)) eqn:T; [now apply H|now apply falsy_plain]. }
  destruct (reads_escapeHtml (title p)) as [T RT].
  destruct (reads_escapeHtml (authors p)) as [A RA].
  destruct (reads_escapeHtml (journal p)) as [J RJ].
  destruct (reads_escapeHtml (year p)) as [Y RY].
  destruct (reads_escapeHtml (doi p)) as [D RD].
  exists T, A, J, Y, D. unfold parse.
  now rewrite (feed_card p i T A J Y D RT RA RJ RY RD Hd).
Qed.

Lemma elements_spaces n k : elements n (spaces k) = [].
Proof.
  unfold spaces. induction k as [|k IH]; simpl; [reflexivity|exact IH].
Qed.

Lemma links_card_tokens delay T A J Y link :
  links (card_tokens delay T A J Y link)
  = match link with
    | Some (target, _) => [Some target]
    | None => []
    end.
Proof.
  unfold links, card_tokens, link_tokens.
  destruct link as [[target D]|]; simpl;
    repeat (rewrite ?elements_app, ?elements_chars; simpl); reflexivity.
Qed.

Lemma cards_card_tokens delay T A J Y link :
  cards (card_tokens delay T A J Y link) = 1.
Proof.
  unfold cards, card_tokens, link_tokens.
  destruct link as [[target D]|]; simpl;
    repeat (rewrite ?elements_app, ?elements_chars; simpl); reflexivity.
Qed.

(** the card of [sample], character by character *)
Example createPublicationCard_sample :
  createPublicationCard sample 2
  = lit "        <article class='publication-card' data-aos='fade-up' data-aos-delay='300'>            <h4>Risk &lt;prediction&gt; &amp; AI</h4>            <p class='authors'>Rossi M, Bianchi L</p>            <p class='venue'>J Clin Microbiol, 2024</p>            <a href='https://doi.org/10.1000/xyz123' class='doi-link' target='_blank' rel='noopener'>                <svg xmlns='http://www.w3.org/2000/svg' viewBox='0 0 24 24' fill='none' stroke='currentColor' stroke-width='2' width='14' height='14'>                    <path d='M18 13v6a2 2 0 0 1-2 2H5a2 2 0 0 1-2-2V8a2 2 0 0 1 2-2h6'/>                    <polyline points='15 3 21 3 21 9'/>                    <line x1='10' y1='14' x2='21' y2='3'/>                </svg>                DOI: 10.1000/xyz123            </a>        </article>    ".
Proof. vm_compute. reflexivity. Qed.

(** the card of [sample] read back: the title comes out as it went in *)
Example parse_sample :
  parse (createPublicationCard sample 2)
  = Some (card_tokens "300" "Risk <prediction> & AI" "Rossi M, Bianchi L"
            "J Clin Microbiol" "2024"
            (Some ("https://doi.org/10.1000/xyz123", "10.1000/xyz123"))).
Proof. vm_compute. reflexivity. Qed.

(** X12. The round trip of [escapeHtml]: a value whose text holds no
    U+0000 and no carriage return, escaped and given to the parser, comes
    back as that text and nothing else, whatever markup characters it
    holds; a falsy value comes back as the empty text. *)
Lemma escapeHtml_round_trip v :
  all_chars text_plain (shown v) = true ->
  parse (escapeHtml v) = Some (chars (shown v))
  /\ option_map text (parse (escapeHtml v)) = Some (shown v).
Proof.
  intro H. destruct (reads_escapeHtml_plain v H) as [cr E].
  unfold parse. rewrite E. split; [reflexivity|].
  simpl. now rewrite text_chars.
Qed.

Lemma escapeHtml_round_trip_witness :
  parse (escapeHtml (Js.Str "a < b && c > d"))
  = Some (chars (shown (Js.Str "a < b && c > d")))
  /\ option_map text (parse (escapeHtml (Js.Str "a < b && c > d")))
     = Some (shown (Js.Str "a < b && c > d")).
Proof.
  apply (escapeHtml_round_trip (Js.Str "a < b && c > d")). reflexivity.
Defined.

(** whatever the value, what [escapeHtml] returns is read as text: no tag
    comes out of it *)
Lemma escapeHtml_no_markup v :
  exists S, parse (escapeHtml v) = Some (chars S).
Proof.
  destruct (reads_escapeHtml v) as [S [cr E]].
  exists S. unfold parse. now rewrite E.
Qed.

(** C2 (amended). For a record whose [doi] text holds no double quote, no
    ampersand, no U+0000 and no carriage return, the card has a link exactly
    when the [doi] is truthy; it is then the only link and its target is
    https://doi.org/ followed by the [doi]. A record whose [doi] is falsy
    (missing, null, empty, 0, false) has a card with no link, whatever its
    [url]. *)
Theorem card_link_iff_truthy_doi :
  forall p i,
    (Js.truthy (doi p) = true ->
     all_chars attr_plain (Js.to_string (doi p)) = true) ->
    exists toks,
      parse (createPublicationCard p i) = Some toks
      /\ links toks
         = if Js.truthy (doi p)
           then [Some ("https://doi.org/" ++ Js.to_string (doi p))]
           else [].
Proof.
  intros p i H.
  destruct (parse_card p i H) as [T [A [J [Y [D E]]]]].
  eexists. split; [exact E|].
  rewrite links_card_tokens. destruct (Js.truthy (doi p)); reflexivity.
Qed.

Lemma card_link_iff_truthy_doi_witness :
  exists toks,
    parse (createPublicationCard sample 0) = Some toks
    /\ links toks
       = if Js.truthy (doi sample)
         then [Some ("https://doi.org/" ++ Js.to_string (doi sample))]
         else [].
Proof.
  apply (card_link_iff_truthy_doi sample 0). intros _. reflexivity.
Defined.

(** C2 as stated fails: [empty_doi] has a [doi] field (the empty string)
    and a [url], and its card has no link. *)
Lemma doi_field_without_link :
  doi empty_doi <> Js.Undefined
  /\ option_map links (parse (createPublicationCard empty_doi 0)) = Some [].
Proof.
  split; [discriminate|]. vm_compute. reflexivity.
Qed.

(** C1. The feed of the one record [quoted_doi] is rendered as two cards:
    the [doi] goes into the [href] attribute as it is, its double quote ends
    the attribute, and the markup after it closes the card and opens
    another. *)
Theorem quoted_doi_renders_two_cards :
  let s := loadPublications
             (Response true (Json (DataObject (FieldArray [quoted_doi])))) served in
  length [quoted_doi] = 1
  /\ option_map innerHTML (container s) = Some (renderPublications [quoted_doi])
  /\ option_map cards (parse (renderPublications [quoted_doi])) = Some 2.
Proof.
  cbv zeta. split; [reflexivity|]. split; [reflexivity|].
  vm_compute. reflexivity.
Qed.

(** C3. The [doi] of [img_doi] is not read back as text: put into the
    [href] attribute unescaped, it ends the link target at its double quote
    and the rest of it becomes an [img] element. *)
Theorem unescaped_doi_becomes_markup :
  option_map (elements "img") (parse (createPublicationCard img_doi 0))
  = Some [StartTag "img" [("src", "y"); ("class", "doi-link");
                          ("target", "_blank"); ("rel", "noopener")] false]
  /\ option_map links (parse (createPublicationCard img_doi 0))
     = Some [Some "https://doi.org/10.1000/x"].
Proof.
  split; vm_compute; reflexivity.
Qed.

Lemma truthy_blank v : Js.truthy (blank v) = Js.truthy v.
Proof. unfold blank. destruct (Js.truthy v) eqn:E; [exact E|reflexivity]. Qed.

Lemma escapeHtml_blank v : escapeHtml (blank v) = escapeHtml v.
Proof.
  unfold escapeHtml, blank. destruct (Js.truthy v) eqn:E.
  - now rewrite E.
  - reflexivity.
Qed.

(** C9. [escapeHtml] gives the empty string for every falsy value, and
    these are undefined, null, false, 0 and the empty string; so a card
    shows a falsy field exactly as it shows the empty string, and never the
    word undefined. *)
Theorem escapeHtml_falsy_is_empty :
  forall v p i,
    Js.truthy v = false ->
    In v [Js.Undefined; Js.Null; Js.Boolean false; Js.Number 0; Js.Str ""]
    /\ escapeHtml v = ""
    /\ createPublicationCard p i = createPublicationCard (blank_missing p) i.
Proof.
  intros v p i H. split; [|split].
  - destruct v as [| |[|]|n|s]; simpl in *; try discriminate; auto.
    + destruct (Z.eqb_spec n 0); [subst; auto 6|discriminate].
    + destruct s; [auto 6|discriminate].
  - unfold escapeHtml. now rewrite H.
  - unfold createPublicationCard, blank_missing. cbn [title authors journal year doi url].
    rewrite !escapeHtml_blank, !truthy_blank.
    destruct (Js.truthy (doi p)) eqn:T; [|reflexivity].
    unfold blank. rewrite T. reflexivity.
Qed.

Lemma escapeHtml_falsy_is_empty_witness :
  In Js.Undefined [Js.Undefined; Js.Null; Js.Boolean false; Js.Number 0; Js.Str ""]
  /\ escapeHtml Js.Undefined = ""
  /\ createPublicationCard journal_only 1
     = createPublicationCard (blank_missing journal_only) 1.
Proof.
  apply (escapeHtml_falsy_is_empty Js.Undefined journal_only 1). reflexivity.
Defined.

(** the card of [journal_only]: empty slots, and no link *)
Example createPublicationCard_journal_only :
  createPublicationCard journal_only 0
  = lit "        <article class='publication-card' data-aos='fade-up' data-aos-delay='100'>            <h4></h4>            <p class='authors'></p>            <p class='venue'>medRxiv, </p>                    </article>    ".
Proof. vm_compute. reflexivity. Qed.

Lemma join_empty_cons x r : join "" (x :: r) = x ++ join "" r.
Proof.
  destruct r as [|y r]; simpl; [now rewrite append_nil_r|reflexivity].
Qed.

Lemma cards_app a b : cards (a ++ b)%list = cards a + cards b.
Proof. unfold cards. now rewrite elements_app, length_app. Qed.

Lemma cards_in_order_count i l tss :
  cards_in_order i l tss -> cards (concat tss) = length l.
Proof.
  induction 1 as [|i p l ts tss _ H1 _ IH]; simpl; [reflexivity|].
  now rewrite cards_app, H1, IH.
Qed.

Lemma feed_cards l : forall i,
  Forall plain_doi l ->
  exists tss,
    feed (Data false) (join "" (map_from createPublicationCard i l))
    = Some (concat tss, Data false)
    /\ cards_in_order i l tss.
Proof.
  induction l as [|p l IH]; intros i H.
  - exists []. split; [reflexivity|constructor].
  - inversion H as [|? ? Hp Hl]; subst.
    destruct (IH (S i) Hl) as [tss [E C]].
    assert (Hd : all_chars attr_plain (Js.to_string (doi p)) = true).
    { destruct (Js.truthy (doi p)) eqn:T; [now apply Hp|now apply falsy_plain]. }
    destruct (reads_escapeHtml (title p)) as [T RT].
    destruct (reads_escapeHtml (authors p)) as [A RA].
    destruct (reads_escapeHtml (journal p)) as [J RJ].
    destruct (reads_escapeHtml (year p)) as [Y RY].
    destruct (reads_escapeHtml (doi p)) as [D RD].
    pose proof (feed_card p i T A J Y D RT RA RJ RY RD Hd) as Ep.
    eexists (_ :: tss). split.
    + cbn [map_from]. rewrite join_empty_cons, feed_app, Ep, E. reflexivity.
    + constructor; [exact Ep|apply cards_card_tokens|exact C].
Qed.

(** X14. When every [doi] stays inside the quotes of its attribute (no
    double quote, ampersand, U+0000 or carriage return in it), the markup
    [loadPublications] gives the container is read back as one card per
    record, in the order of the list, the card at index [i] being the one
    [createPublicationCard] makes of the record at index [i]; titles,
    authors and the other escaped fields may hold anything. *)
Lemma render_one_card_per_record l :
  Forall plain_doi l ->
  exists tss,
    parse (renderPublications l) = Some (concat tss)
    /\ cards_in_order 0 l tss
    /\ cards (concat tss) = length l.
Proof.
  intro H. destruct (feed_cards l 0 H) as [tss [E C]].
  exists tss. unfold parse, renderPublications. rewrite E.
  split; [reflexivity|]. split; [exact C|].
  exact (cards_in_order_count _ _ _ C).
Qed.

Lemma render_one_card_per_record_witness :
  exists tss,
    parse (renderPublications [sample; journal_only; empty_doi]) = Some (concat tss)
    /\ cards_in_order 0 [sample; journal_only; empty_doi] tss
    /\ cards (concat tss) = length [sample; journal_only; empty_doi].
Proof.
  apply (render_one_card_per_record [sample; journal_only; empty_doi]).
  repeat constructor; intro; try discriminate; reflexivity.
Defined.

Lemma escape_char_no_angle c : all_chars no_angle (Html.escape_char c) = true.
Proof.
  unfold Html.escape_char.
  destruct (c =? "&")%char; [reflexivity|].
  destruct (c =? "<")%char eqn:E1; [reflexivity|].
  destruct (c =? ">")%char eqn:E2; [reflexivity|].
  destruct (c =? Html.nbsp)%char; [reflexivity|].
  cbn [all_chars]. unfold no_angle. now rewrite E1, E2.
Qed.

(** X13. What [escapeHtml] returns never holds the character that opens a
    tag nor the one that closes it, whatever the value it is given. *)
Theorem escapeHtml_has_no_angle_bracket :
  forall v, all_chars no_angle (escapeHtml v) = true.
Proof.
  intro v. rewrite escapeHtml_shown.
  induction (shown v) as [|c s IH]; [reflexivity|].
  cbn [Html.escape_text]. now rewrite all_chars_app, escape_char_no_angle, IH.
Qed.

Lemma text_spaces n : text (spaces n) = blanks n.
Proof.
  unfold spaces, blanks. induction n as [|n IH]; simpl; [reflexivity|].
  now rewrite IH.
Qed.

Lemma text_cons_start n a f l : text (StartTag n a f :: l) = text l.
Proof. reflexivity. Qed.

Lemma text_cons_end n l : text (EndTag n :: l) = text l.
Proof. reflexivity. Qed.

Lemma blanks_add a b : blanks a ++ blanks b = blanks (a + b).
Proof.
  unfold blanks. induction a as [|a IH]; simpl; [reflexivity|].
  now rewrite IH.
Qed.

Lemma text_card_tokens delay T A J Y link :
  text (card_tokens delay T A J Y link)
  = card_text T A J Y (option_map snd link).
Proof.
  unfold card_tokens, link_tokens, card_text.
  destruct link as [[target D]|]; cbn [option_map snd];
    repeat (rewrite ?text_app, ?text_cons_start, ?text_cons_end, ?text_chars,
              ?text_spaces);
    cbn [text]; rewrite ?append_assoc, ?append_nil_r;
    repeat (rewrite ?blanks_add || rewrite <- ?append_assoc);
    rewrite ?append_assoc; cbn [Nat.add]; reflexivity.
Qed.

(** X15. What a visitor reads in a card: for a record whose texts hold no
    U+0000 and no carriage return and whose [doi] stays inside its
    attribute, the text of the card is the title, the authors, the journal,
    a comma and the year, and after DOI: the [doi] when it is truthy, each
    exactly as the record has it (whatever markup characters it holds),
    between the blanks of the template; a falsy field reads as nothing. *)
Theorem card_reads_as_its_fields :
  forall p i,
    plain_texts p ->
    plain_doi p ->
    exists toks,
      parse (createPublicationCard p i) = Some toks
      /\ text toks
         = card_text (shown (title p)) (shown (authors p)) (shown (journal p))
             (shown (year p))
             (if Js.truthy (doi p) then Some (shown (doi p)) else None).
Proof.
  intros p i [Ht [Ha [Hj [Hy Hd]]]] Hp.
  assert (Hq : all_chars attr_plain (Js.to_string (doi p)) = true).
  { destruct (Js.truthy (doi p)) eqn:T; [now apply Hp|now apply falsy_plain]. }
  pose proof (feed_card p i _ _ _ _ _
                (reads_escapeHtml_plain _ Ht) (reads_escapeHtml_plain _ Ha)
                (reads_escapeHtml_plain _ Hj) (reads_escapeHtml_plain _ Hy)
                (reads_escapeHtml_plain _ Hd) Hq) as E.
  eexists. unfold parse. rewrite E. split; [reflexivity|].
  rewrite text_card_tokens. destruct (Js.truthy (doi p)); reflexivity.
Qed.

Lemma card_reads_as_its_fields_witness :
  exists toks,
    parse (createPublicationCard sample 0) = Some toks
    /\ text toks
       = card_text (shown (title sample)) (shown (authors sample))
           (shown (journal sample)) (shown (year sample))
           (if Js.truthy (doi sample) then Some (shown (doi sample)) else None).
Proof.
  apply (card_reads_as_its_fields sample 0).
  - repeat split.
  - intros _. reflexivity.
Defined.

(* ================================================================== *)
(** ** The two render states *)




(* ================================================================== *)
(** ** The mobile navigation *)

Import Navigation.

Lemma active_toggle l :
  active (classList_toggle "active" l) = negb (active l).
Proof.
  unfold classList_toggle, active.
  destruct (existsb (String.eqb "active") l) eqn:E.
  - now rewrite classList_remove_has.
  - now rewrite classList_add_has.
Qed.

Lemma classList_remove_twice c l :
  classList_remove c (classList_remove c l) = classList_remove c l.
Proof.
  unfold classList_remove. induction l as [|x l IH]; [reflexivity|].
  cbn [filter]. destruct (negb (String.eqb c x)) eqn:E; [|exact IH].
  cbn [filter]. now rewrite E, IH.
Qed.

Lemma others_toggle l : others (classList_toggle "active" l) = others l.
Proof.
  unfold classList_toggle, others.
  destruct (existsb (String.eqb "active") l);
    [apply classList_remove_others|apply classList_add_others].
Qed.

Lemma listener_pair h tm :
  active (fst tm) = active (snd tm) ->
  active (fst (listener h tm)) = active (snd (listener h tm)).
Proof.
  intro H. destruct h; cbn [listener both fst snd].
  - now rewrite !active_toggle, H.
  - unfold active. now rewrite !classList_remove_has.
  - exact H.
Qed.

Lemma listener_others h tm :
  others (fst (listener h tm)) = others (fst tm)
  /\ others (snd (listener h tm)) = others (snd tm).
Proof.
  destruct h; cbn [listener both fst snd]; split; try reflexivity;
    try apply others_toggle; apply classList_remove_others.
Qed.

Lemma bubble_pair path : forall tm,
  active (fst tm) = active (snd tm) ->
  let tm' := outside path (fold_left (fun tm h => listener h tm) path tm) in
  active (fst tm') = active (snd tm').
Proof.
  intros tm H.
  assert (F : forall l tm0, active (fst tm0) = active (snd tm0) ->
              active (fst (fold_left (fun tm h => listener h tm) l tm0))
              = active (snd (fold_left (fun tm h => listener h tm) l tm0))).
  { induction l as [|h l IH]; intros tm0 H0; [exact H0|].
    cbn [fold_left]. apply IH. now apply listener_pair. }
  cbv zeta. unfold outside.
  destruct (negb (existsb is_toggle path) && negb (existsb in_menu path)).
  - cbn [both fst snd]. unfold active. now rewrite !classList_remove_has.
  - now apply F.
Qed.

Lemma bubble_others path : forall tm,
  let tm' := outside path (fold_left (fun tm h => listener h tm) path tm) in
  others (fst tm') = others (fst tm) /\ others (snd tm') = others (snd tm).
Proof.
  intro tm.
  assert (F : forall l tm0,
              others (fst (fold_left (fun tm h => listener h tm) l tm0))
              = others (fst tm0)
              /\ others (snd (fold_left (fun tm h => listener h tm) l tm0))
                 = others (snd tm0)).
  { induction l as [|h l IH]; intro tm0; [split; reflexivity|].
    cbn [fold_left]. destruct (IH (listener h tm0)) as [E1 E2].
    destruct (listener_others h tm0) as [L1 L2].
    rewrite E1, E2, L1, L2. split; reflexivity. }
  cbv zeta. unfold outside. destruct (F path tm) as [E1 E2].
  destruct (negb (existsb is_toggle path) && negb (existsb in_menu path)).
  - cbn [both fst snd]. unfold others.
    rewrite !classList_remove_others. exact (conj E1 E2).
  - exact (conj E1 E2).
Qed.

Lemma click_in_step path s : in_step s -> in_step (click path s).
Proof.
  unfold in_step, click.
  destruct (navToggle s) as [t|] eqn:Et, (navMenu s) as [m|] eqn:Em;
    cbn [navToggle navMenu]; rewrite ?Et, ?Em; auto.
  intro H. now apply (bubble_pair path (t, m)).
Qed.

(** X16. The menu follows the toggle: in a page where the toggle carries
    the class active exactly when the menu does, this stays so after any
    sequence of clicks, wherever they land (on the toggle, on a link of the
    menu, elsewhere in the menu, outside both). *)
Theorem menu_follows_toggle :
  forall paths s,
    in_step s ->
    in_step (clicks paths s).
Proof.
  unfold clicks. induction paths as [|path paths IH]; intros s H; simpl.
  - exact H.
  - apply IH. now apply click_in_step.
Qed.

Lemma menu_follows_toggle_witness :
  in_step (clicks [[Toggle]; [Link; Menu]; []; [Toggle]; [Menu]]
             {| navToggle := Some ["nav-toggle"];
                navMenu := Some ["nav-menu"] |}).
Proof.
  apply (menu_follows_toggle [[Toggle]; [Link; Menu]; []; [Toggle]; [Menu]]
           {| navToggle := Some ["nav-toggle"]; navMenu := Some ["nav-menu"] |}).
  reflexivity.
Defined.

Lemma bubble_without_toggle path : forall tm,
  existsb is_toggle path = false ->
  fold_left (fun tm h => listener h tm) path tm
  = if existsb is_link path
    then both (classList_remove "active") (fst tm) (snd tm)
    else tm.
Proof.
  induction path as [|h path IH]; intros tm H; [reflexivity|].
  cbn [existsb] in H. apply orb_false_iff in H as [Hh Hp].
  cbn [fold_left existsb]. rewrite (IH _ Hp).
  destruct h; [discriminate| |]; cbn [is_link listener orb both fst snd].
  - destruct (existsb is_link path); [|reflexivity].
    unfold both. now rewrite !classList_remove_twice.
  - destruct tm. reflexivity.
Qed.

(** X17. What a click does when the toggle and the menu are both there: a
    click on the toggle alone opens a closed menu and closes an open one; a
    click that does not pass the toggle closes the menu when it lands on a
    link of the menu or outside the menu, and changes nothing when it lands
    in the menu beside the links. *)
Theorem click_opens_and_closes :
  forall t m path,
    let s := {| navToggle := Some t; navMenu := Some m |} in
    let closed := {| navToggle := Some (classList_remove "active" t);
                     navMenu := Some (classList_remove "active" m) |} in
    (option_map active (navToggle (click [Toggle] s)) = Some (negb (active t))
     /\ option_map active (navMenu (click [Toggle] s)) = Some (negb (active m)))
    /\ (existsb is_toggle path = false ->
        click path s
        = if existsb is_link path || negb (existsb in_menu path)
          then closed else s).
Proof.
  intros t m path s closed. split.
  - unfold click. cbn. now rewrite !active_toggle.
  - intro H. unfold click. cbn [s navToggle navMenu]. cbv zeta.
    rewrite (bubble_without_toggle path (t, m) H). unfold outside. rewrite H.
    cbn [negb andb fst snd].
    destruct (existsb is_link path), (existsb in_menu path);
      unfold both; cbn [negb orb fst snd]; rewrite ?classList_remove_twice;
      reflexivity.
Qed.

(** X18. The navigation touches no class but active: after any sequence of
    clicks the toggle and the menu carry, apart from active, the classes
    they carried before, in the same order; and without the toggle or
    without the menu no click changes anything. *)
Theorem clicks_touch_only_active :
  forall paths s,
    option_map others (navToggle (clicks paths s))
    = option_map others (navToggle s)
    /\ option_map others (navMenu (clicks paths s))
       = option_map others (navMenu s)
    /\ (navToggle s = None \/ navMenu s = None -> clicks paths s = s).
Proof.
  unfold clicks. induction paths as [|path paths IH]; intro s; simpl.
  - repeat split.
  - destruct (IH (click path s)) as [E1 [E2 E3]].
    assert (C : option_map others (navToggle (click path s))
                = option_map others (navToggle s)
                /\ option_map others (navMenu (click path s))
                   = option_map others (navMenu s)
                /\ (navToggle s = None \/ navMenu s = None -> click path s = s)).
    { unfold click.
      destruct (navToggle s) as [t|] eqn:Et, (navMenu s) as [m|] eqn:Em;
        cbn [navToggle navMenu option_map]; rewrite ?Et, ?Em;
        try (repeat split; reflexivity).
      destruct (bubble_others path (t, m)) as [B1 B2]. cbn [fst snd] in B1, B2.
      split; [now rewrite B1|]. split; [now rewrite B2|].
      intros [H|H]; discriminate. }
    destruct C as [C1 [C2 C3]].
    split; [now rewrite E1|]. split; [now rewrite E2|].
    intro H. rewrite (C3 H) in *. now apply E3.
Qed.
